(** * Trading bot: signal evaluation, position sizing, valuation and ranking

    A shallow embedding of [src/main.py]: the pure decision pipeline
    ([calculate_max_position], [calculate_coefficient],
    [Trading_Bot.strategy], [get_total_asset]), the ranking part of
    [Trading_Bot.run] (the two sorts and the threshold update) and its order
    loop, the request builders ([place_order], [query_order],
    [cancel_order], [_get_signed_headers]), the precision lookups, and the
    price columns of [get_ohlcv] with [calculate_atr].

    Numbers.  The program computes with Python and numpy floats.  They are
    modelled by [float] below: the IEEE special values NaN, +inf and -inf
    next to the finite values, the finite values being exact rationals.
    Comparisons and the arithmetic of the special values follow IEEE 754 as
    Python and numpy expose it (every comparison with NaN is false, numpy
    division by zero yields an infinity or NaN, Python division by zero
    raises [ZeroDivisionError]).  Rounding, overflow and the sign of zero
    are not modelled: an identity of exact arithmetic such as
    [(k / p) * p = k] holds of the model without being a fact about the
    program, and no property below rests on one: they use the order and
    the signs of the computed values, which rounding to nearest preserves.

    Boundary.  Network calls ([get_ticker], [get_ohlcv], [get_balance]) and
    the pandas window statistics of [calculate_technical_indicators] are
    inputs of the model: a ticker reply, an enriched data frame (one [Row]
    per sample) and a balance snapshot.  The order loop is modelled by the
    requests it hands to [_post_request]; HTTP transport, the HMAC digest,
    [round] and [str] on numbers are parameters, printing and sleeping are
    left out.  The standard deviations of [calculate_technical_indicators]
    need square roots and are not modelled. *)

From Stdlib Require Import String Ascii DecimalString QArith Qabs Lqa Lia Bool List.
From Stdlib Require Import Permutation Sorted OrderedTypeEx.
From Stdlib Require PeanoNat.
Import ListNotations.

Set Implicit Arguments.

(** ** Floats *)

Module PyFloat.

Inductive float : Type :=
| NaN
| PInf
| NInf
| Fin (q : Q).

Declare Scope float_scope.
Delimit Scope float_scope with float.
Bind Scope float_scope with float.

Definition zero : float := Fin 0.

(** [pd.isna] on a scalar. *)
Definition isna (x : float) : bool :=
  match x with NaN => true | _ => false end.

(** Sign of a rational: [Gt] positive, [Eq] zero, [Lt] negative. *)
Definition Qsign (q : Q) : comparison := (q ?= 0)%Q.

Definition neg (x : float) : float :=
  match x with
  | NaN => NaN
  | PInf => NInf
  | NInf => PInf
  | Fin q => Fin (- q)
  end.

Definition abs (x : float) : float :=
  match x with
  | NaN => NaN
  | PInf | NInf => PInf
  | Fin q => Fin (Qabs q)
  end.

Definition add (x y : float) : float :=
  match x, y with
  | NaN, _ | _, NaN => NaN
  | PInf, NInf | NInf, PInf => NaN
  | PInf, _ | _, PInf => PInf
  | NInf, _ | _, NInf => NInf
  | Fin a, Fin b => Fin (a + b)
  end.

Definition sub (x y : float) : float := add x (neg y).

(** An infinity times a finite value: the sign of the finite value decides,
    and zero times an infinity is NaN. *)
Definition inf_times (positive : bool) (q : Q) : float :=
  match Qsign q with
  | Eq => NaN
  | Gt => if positive then PInf else NInf
  | Lt => if positive then NInf else PInf
  end.

Definition mul (x y : float) : float :=
  match x, y with
  | NaN, _ | _, NaN => NaN
  | PInf, PInf | NInf, NInf => PInf
  | PInf, NInf | NInf, PInf => NInf
  | PInf, Fin q | Fin q, PInf => inf_times true q
  | NInf, Fin q | Fin q, NInf => inf_times false q
  | Fin a, Fin b => Fin (a * b)
  end.

(** numpy division ([np.float64.__truediv__]): never raises. *)
Definition np_div (x y : float) : float :=
  match x, y with
  | NaN, _ | _, NaN => NaN
  | PInf, PInf | PInf, NInf | NInf, PInf | NInf, NInf => NaN
  | PInf, Fin q => match Qsign q with Lt => NInf | _ => PInf end
  | NInf, Fin q => match Qsign q with Lt => PInf | _ => NInf end
  | Fin _, PInf | Fin _, NInf => Fin 0
  | Fin a, Fin b =>
      match Qsign b with
      | Eq => inf_times true a
      | _ => Fin (a / b)
      end
  end.

(** [x < y]; false as soon as one side is NaN. *)
Definition ltb (x y : float) : bool :=
  match x, y with
  | NaN, _ | _, NaN => false
  | _, NInf => false
  | NInf, _ => true
  | PInf, _ => false
  | _, PInf => true
  | Fin a, Fin b => match (a ?= b)%Q with Lt => true | _ => false end
  end.

(** [x == y]; false as soon as one side is NaN. *)
Definition eqb (x y : float) : bool :=
  match x, y with
  | NaN, _ | _, NaN => false
  | PInf, PInf | NInf, NInf => true
  | Fin a, Fin b => Qeq_bool a b
  | _, _ => false
  end.

Definition leb (x y : float) : bool := ltb x y || eqb x y.

(** [x > y] is [y < x]. *)
Definition gtb (x y : float) : bool := ltb y x.

(** Python's builtin [min(a, b)]: the first argument stays unless the second
    is strictly smaller. *)
Definition py_min (a b : float) : float := if ltb b a then b else a.

(** Python's builtin [max(a, b)]: the first argument stays unless the second
    is strictly greater. *)
Definition py_max (a b : float) : float := if gtb b a then b else a.

End PyFloat.

Import PyFloat.

Notation "x + y" := (add x y) : float_scope.
Notation "x - y" := (sub x y) : float_scope.
Notation "x * y" := (mul x y) : float_scope.
Notation "x / y" := (np_div x y) : float_scope.
Notation "- x" := (neg x) : float_scope.
Notation "x <? y" := (ltb x y) : float_scope.
Notation "x >? y" := (gtb x y) : float_scope.
Notation "x <=? y" := (leb x y) : float_scope.
Notation "x =? y" := (eqb x y) : float_scope.

Open Scope float_scope.

(** ** Exceptions

    The exceptions the modelled code can raise, and the monad that threads
    them.  [Trading_Bot.strategy] catches every one of them. *)

Inductive exn : Type :=
| UnboundLocalError
| TypeError
| AttributeError
| KeyError
| IndexError
| ZeroDivisionError.

Inductive result (A : Type) : Type :=
| Ok (a : A)
| Raise (e : exn).

Arguments Ok {A} a.
Arguments Raise {A} e.

Definition bind {A B : Type} (m : result A) (k : A -> result B) : result B :=
  match m with
  | Ok a => k a
  | Raise e => Raise e
  end.

Notation "x <- m ;; k" := (bind m (fun x => k))
  (at level 61, m at next level, right associativity).

(** Python division of two Python numbers: a zero divisor raises. *)
Definition py_div (x y : float) : result float :=
  if y =? zero then Raise ZeroDivisionError else Ok (x / y).

(** ** Data model *)

(** One sample of the enriched data frame returned by
    [calculate_technical_indicators]. *)
Record Row : Type := mkRow {
  close : float;
  short_MA : float;
  long_MA : float;
  stdV : float;
  std_volavolatility_ratio : float;
  atr : float
}.

Definition DataFrame : Type := list Row.

(** [df.iloc[-1]], [df[col].iloc[-1]] and [df[col].values[-1]]: the last
    sample; an empty frame raises [IndexError]. *)
Fixpoint iloc_last (df : DataFrame) : result Row :=
  match df with
  | [] => Raise IndexError
  | [r] => Ok r
  | _ :: rest => iloc_last rest
  end.

(** A ticker reply: the [Success] flag and, under [Data], the last price of
    each pair. *)
Record Ticker : Type := mkTicker {
  Success : bool;
  Data : list (string * float)
}.

(** One wallet entry; [Free] and [Lock] may be absent from the reply. *)
Record BalanceInfo : Type := mkInfo {
  Free : option float;
  Lock : option float
}.

Definition Wallet : Type := list (string * BalanceInfo).

Record BalanceData : Type := mkBalance {
  SpotWallet : option Wallet
}.

(** [d.get(key)] on a dict kept as an association list in insertion order. *)
Fixpoint dict_get {V : Type} (key : string) (d : list (string * V)) : option V :=
  match d with
  | [] => None
  | (k, v) :: rest => if String.eqb k key then Some v else dict_get key rest
  end.

(** [d[key]]: an absent key raises [KeyError]. *)
Definition dict_index {V : Type} (key : string) (d : list (string * V)) : result V :=
  match dict_get key d with
  | Some v => Ok v
  | None => Raise KeyError
  end.

Definition get_default {V : Type} (o : option V) (default : V) : V :=
  match o with
  | Some v => v
  | None => default
  end.

Definition empty_info : BalanceInfo := mkInfo None None.

(** [spot_wallet.get(coin, {}).get('Free', 0)] and the same for ['Lock']. *)
Definition wallet_free (w : Wallet) (coin : string) : float :=
  get_default (Free (get_default (dict_get coin w) empty_info)) zero.

Definition wallet_lock (w : Wallet) (coin : string) : float :=
  get_default (Lock (get_default (dict_get coin w) empty_info)) zero.

(** [balance.get('SpotWallet', {})]; [balance] is [None] when [get_balance]
    failed, and [None.get] raises [AttributeError]. *)
Definition spot_wallet_of (balance : option BalanceData) : result Wallet :=
  match balance with
  | None => Raise AttributeError
  | Some b => Ok (get_default (SpotWallet b) [])
  end.

Definition pair_of (coin : string) : string := String.append coin "/USD".

(** [ticker['Data'][pair]['LastPrice']]. *)
Definition last_price (t : Ticker) (pair : string) : result float :=
  dict_index pair (Data t).

(** [ticker and ticker.get('Success')]. *)
Definition ticker_ok (ticker : option Ticker) : option Ticker :=
  match ticker with
  | Some t => if Success t then Some t else None
  | None => None
  end.

(** ** Portfolio valuation: [get_total_asset] *)

(** The [for coin, balance_info in spot_wallet.items()] loop, with the
    running [total_usd]. [get_ticker] is the price lookup. *)
Fixpoint valuation_loop (get_ticker : string -> option Ticker)
    (items : Wallet) (total_usd : float) : result float :=
  match items with
  | [] => Ok total_usd
  | (coin, balance_info) :: rest =>
      if negb (String.eqb coin "USD") && negb (String.eqb coin "USDT") then
        let total_amount :=
          get_default (Free balance_info) zero
          + get_default (Lock balance_info) zero in
        if total_amount >? zero then
          match ticker_ok (get_ticker (pair_of coin)) with
          | Some ticker =>
              p <- last_price ticker (pair_of coin) ;;
              valuation_loop get_ticker rest (total_usd + total_amount * p)
          | None => valuation_loop get_ticker rest total_usd
          end
        else valuation_loop get_ticker rest total_usd
      else valuation_loop get_ticker rest total_usd
  end.

Definition get_total_asset (get_ticker : string -> option Ticker)
    (balance_data : option BalanceData) : result float :=
  spot_wallet <- spot_wallet_of balance_data ;;
  let total_usd := wallet_free spot_wallet "USD" + wallet_lock spot_wallet "USD" in
  valuation_loop get_ticker spot_wallet total_usd.

(** ** Position sizing and coefficient *)

Definition calculate_max_position (df : DataFrame) (total_capital : float)
    (risk_coefficient : float) : result float :=
  latest <- iloc_last df ;;
  let current_price := close latest in
  let current_std := stdV latest in
  let std_volavolatility_ratio := std_volavolatility_ratio latest in
  let current_std :=
    if current_std =? zero then current_price * Fin 0.001 else current_std in
  let volatility_ratio := current_std / current_price in
  let max_position :=
    total_capital * risk_coefficient
    / (volatility_ratio / std_volavolatility_ratio) in
  Ok max_position.

Definition calculate_coefficient (df : DataFrame) : result float :=
  latest <- iloc_last df ;;
  if isna (atr latest) || (atr latest =? zero) then Ok zero
  else
    let ma_diff := short_MA latest - long_MA latest in
    let current_price := close latest in
    let current_std := stdV latest in
    let current_std :=
      if current_std =? zero then current_price * Fin 0.01 else current_std in
    let std_volavolatility_ratio := std_volavolatility_ratio latest in
    let objective_volatility_ratio := Fin 0.02 / std_volavolatility_ratio in
    let objective_volatility_ratio :=
      py_max (Fin 0.9) (py_min (Fin 1.11) objective_volatility_ratio) in
    let coefficient := objective_volatility_ratio * ma_diff / atr latest in
    Ok coefficient.

(** ** Decisions and [Trading_Bot.strategy] *)

Inductive Action : Type := BUY | SELL | NULL.

Definition Action_eqb (a b : Action) : bool :=
  match a, b with
  | BUY, BUY | SELL, SELL | NULL, NULL => true
  | _, _ => false
  end.

(** The decision dict.  The keys every decision has are plain fields; the
    keys only the successful path sets are options ([None]: key absent). *)
Record Decision : Type := mkDecision {
  target : string;
  action : Action;
  amount : float;
  coefficient : float;
  Max_position : float;
  balance : option float;
  price : option float;
  balance_USD : option float;
  spending : option float;
  sell_price : option float;
  coin : option string
}.

(** The dict built in the [except] branch. *)
Definition neutral_decision (target : string) : Decision :=
  {| target := target; action := NULL; amount := zero; coefficient := zero;
     Max_position := zero; balance := None; price := None;
     balance_USD := None; spending := None; sell_price := None;
     coin := None |}.

(** What one call of [strategy] reads from the outside world: the reply of
    its own [get_ticker] call, the enriched frame
    [calculate_technical_indicators(get_ohlcv(..))] ([None] when [get_ohlcv]
    returned [None]), and the price lookup [get_total_asset] uses. *)
Record Feed : Type := mkFeed {
  feed_ticker : option Ticker;
  feed_data : option DataFrame;
  feed_lookup : string -> option Ticker
}.

(** The body of the [try] block. *)
Definition strategy_body (feed : Feed) (target : string)
    (balance : option BalanceData) (threshold safety safety_coefficient : float)
    : result Decision :=
  (* [price] is assigned only under [if ticker and ticker.get('Success')] *)
  price <- match ticker_ok (feed_ticker feed) with
           | Some ticker =>
               p <- last_price ticker (pair_of target) ;; Ok (Some p)
           | None => Ok None
           end ;;
  (* [calculate_technical_indicators(None)] subscripts [None] *)
  data <- match feed_data feed with
          | Some df => Ok df
          | None => Raise TypeError
          end ;;
  total_capital <- get_total_asset (feed_lookup feed) balance ;;
  max_position <- calculate_max_position data total_capital (Fin 0.05) ;;
  coefficient <- calculate_coefficient data ;;
  (* first read of [price] *)
  price <- match price with
           | Some p => Ok p
           | None => Raise UnboundLocalError
           end ;;
  let amount := abs (max_position * coefficient) / price in
  spot_wallet <- spot_wallet_of balance ;;
  let balance_target := wallet_free spot_wallet target + wallet_lock spot_wallet target in
  let current_USD := wallet_free spot_wallet "USD" in
  let balance_USD := balance_target * price in
  let stored_coefficient := py_min (Fin 5) coefficient in
  (* BUY branch *)
  bought <-
    (if coefficient >? threshold + Fin 0.1 then
       cash_amount <- py_div (current_USD * safety_coefficient) price ;;
       Ok (BUY, py_min cash_amount (abs (max_position * coefficient) / price))
     else Ok (NULL, amount)) ;;
  latest <- iloc_last data ;;
  let sell_price := price + Fin 3 * stdV latest in
  (* SELL branch *)
  let sold :=
    if coefficient <? threshold then (SELL, balance_target) else bought in
  (* zero amount override *)
  let final_action := if snd sold =? zero then NULL else fst sold in
  Ok {| target := target; action := final_action; amount := snd sold;
        coefficient := stored_coefficient; Max_position := max_position;
        balance := Some balance_target; price := Some price;
        balance_USD := Some balance_USD;
        spending := Some (snd sold * price);
        sell_price := Some sell_price; coin := None |}.

(** [try: ... except Exception: return neutral]. *)
Definition strategy (feed : Feed) (target : string)
    (balance : option BalanceData) (threshold safety safety_coefficient : float)
    : Decision :=
  match strategy_body feed target balance threshold safety safety_coefficient with
  | Ok decision => decision
  | Raise _ => neutral_decision target
  end.

(** ** Ranking: the sorts and the threshold update of [Trading_Bot.run] *)

(** [list.sort(key = ...)] is stable: equal keys keep their order.  It is
    modelled by insertion from the right; an element moves past those with a
    strictly smaller key only. *)
Section Sort.

Variables (A K : Type) (lt : K -> K -> bool) (key : A -> K).

Fixpoint insert_by (x : A) (l : list A) : list A :=
  match l with
  | [] => [x]
  | y :: rest =>
      if lt (key y) (key x) then y :: insert_by x rest else x :: y :: rest
  end.

Fixpoint sort_by (l : list A) : list A :=
  match l with
  | [] => []
  | x :: rest => insert_by x (sort_by rest)
  end.

End Sort.

(** [False < True] on Python booleans. *)
Definition bool_ltb (a b : bool) : bool := negb a && b.

(** [<] on the key tuples [(bool, bool, float)]: the first position where
    the tuples differ decides. *)
Definition tuple_ltb (a b : bool * bool * float) : bool :=
  let '(a1, a2, a3) := a in
  let '(b1, b2, b3) := b in
  if negb (Bool.eqb a1 b1) then bool_ltb a1 b1
  else if negb (Bool.eqb a2 b2) then bool_ltb a2 b2
  else if negb (a3 =? b3) then a3 <? b3
  else false.

(** [lambda x: -(x.get('coefficient'))]. *)
Definition threshold_key (x : Decision) : float := - coefficient x.

(** [lambda x: (x.get('action') == "NULL", x.get('action') == 'BUY',
    -abs(x.get('coefficient')))]. *)
Definition execution_key (x : Decision) : bool * bool * float :=
  (Action_eqb (action x) NULL, Action_eqb (action x) BUY,
   - abs (coefficient x)).

Definition sort_for_threshold : list Decision -> list Decision :=
  sort_by ltb threshold_key.

Definition sort_for_execution : list Decision -> list Decision :=
  sort_by tuple_ltb execution_key.

(** [max(0.5, decision_list[2].get('coefficient', 0) * 0.95)] on the list
    sorted for the threshold; fewer than three entries raise [IndexError]. *)
Definition next_sellpoint (decision_list : list Decision) : result float :=
  match nth_error (sort_for_threshold decision_list) 2 with
  | Some d => Ok (py_max (Fin 0.5) (coefficient d * Fin 0.95))
  | None => Raise IndexError
  end.

Definition coin_list : list string :=
  ["BTC"; "ETH"; "BNB"; "XRP"; "DOGE"; "ADA"; "SOL"; "TRX"; "LTC"; "DOT";
   "AVAX"; "SHIB"; "LINK"; "UNI"; "AAVE"; "ICP"; "NEAR"; "ARB"; "TON"; "FIL"]%string.

Definition set_coin (c : string) (d : Decision) : Decision :=
  {| target := target d; action := action d; amount := amount d;
     coefficient := coefficient d; Max_position := Max_position d;
     balance := balance d; price := price d; balance_USD := balance_USD d;
     spending := spending d; sell_price := sell_price d; coin := Some c |}.

(** What one cycle reads: the balance snapshot and a feed per coin. *)
Record CycleFeed : Type := mkCycleFeed {
  cycle_balance : option BalanceData;
  cycle_feed : string -> Feed
}.

(** The [for coin in coin_list] loop of one cycle. *)
Definition evaluate_coins (coins : list string) (f : CycleFeed)
    (sellpoint safety safety_coefficient : float) : list Decision :=
  map (fun coin =>
         set_coin coin
           (strategy (cycle_feed f coin) coin (cycle_balance f) sellpoint
              safety safety_coefficient))
      coins.

(** One pass of the [while True] body up to the execution order. *)
Record CycleLog : Type := mkLog {
  used_threshold : float;
  decisions : list Decision;
  new_sellpoint : float;
  execution_order : list Decision
}.

Definition cycle (f : CycleFeed) (sellpoint safety safety_coefficient : float)
    : result CycleLog :=
  let decision_list := evaluate_coins coin_list f sellpoint safety safety_coefficient in
  sp <- next_sellpoint decision_list ;;
  Ok {| used_threshold := sellpoint;
        decisions := decision_list;
        new_sellpoint := sp;
        execution_order := sort_for_execution (sort_for_threshold decision_list) |}.

(** [run]: [sellpoint = 0], then one cycle per feed, each cycle handing its
    new sellpoint to the next. *)
Fixpoint run_from (sellpoint safety safety_coefficient : float)
    (feeds : list CycleFeed) : result (list CycleLog) :=
  match feeds with
  | [] => Ok []
  | f :: rest =>
      log <- cycle f sellpoint safety safety_coefficient ;;
      logs <- run_from (new_sellpoint log) safety safety_coefficient rest ;;
      Ok (log :: logs)
  end.

Definition run (feeds : list CycleFeed) : result (list CycleLog) :=
  run_from zero (Fin 1000) (Fin 0.4) feeds.

(** ** Window statistics: the price columns of [get_ohlcv] and
    [calculate_atr]

    A column of a data frame is the list of its values in row order; the
    reply of the data provider is taken in increasing time order, so that
    the final [sort_values('timestamp')] of [get_ohlcv] leaves the rows in
    place. *)

Definition Series : Type := list float.

(** [s.shift(1)]: every value moves one row down, the first row is NaN. *)
Definition shift1 (s : Series) : Series :=
  match s with
  | [] => []
  | _ :: _ => NaN :: removelast s
  end.

(** The [n] samples that end at row [i]. *)
Definition window (n i : nat) (s : Series) : list float :=
  firstn n (skipn (i + 1 - n) s).

(** [s.rolling(n).agg()]: NaN until [n] samples are there and whenever the
    window holds a NaN ([min_periods] is the window size). *)
Definition rolling (n : nat) (agg : list float -> float) (s : Series) : Series :=
  map (fun i =>
         if Nat.leb n (i + 1) then
           if existsb isna (window n i s) then NaN else agg (window n i s)
         else NaN)
      (seq 0 (length s)).

Definition window_max (w : list float) : float :=
  match w with
  | [] => NaN
  | x :: rest => fold_left (fun m y => if m <? y then y else m) rest x
  end.

Definition window_min (w : list float) : float :=
  match w with
  | [] => NaN
  | x :: rest => fold_left (fun m y => if y <? m then y else m) rest x
  end.

Definition window_mean (w : list float) : float :=
  fold_left add w zero / Fin (inject_Z (Z.of_nat (length w))).

(** Arithmetic on two columns of the same frame, row by row. *)
Fixpoint map2 (f : float -> float -> float) (a b : Series) : Series :=
  match a, b with
  | x :: a', y :: b' => f x y :: map2 f a' b'
  | _, _ => []
  end.

(** The greater of two values, a NaN being skipped ([skipna]). *)
Definition nan_max (a b : float) : float :=
  if isna a then b else if isna b then a else if a <? b then b else a.

(** The columns [get_ohlcv] derives from the closing prices. *)
Definition ohlcv_open (close : Series) : Series := shift1 close.

Definition ohlcv_high (close : Series) : Series := rolling 5 window_max close.

Definition ohlcv_low (close : Series) : Series := rolling 5 window_min close.

(** [tr] of [calculate_atr]: the row-wise maximum of the three ranges. *)
Definition true_range (high low close : Series) : Series :=
  let high_low := map2 sub high low in
  let high_close_prev := map abs (map2 sub high (shift1 close)) in
  let low_close_prev := map abs (map2 sub low (shift1 close)) in
  map2 nan_max (map2 nan_max high_low high_close_prev) low_close_prev.

Definition calculate_atr (high low close : Series) (period : nat) : Series :=
  let tr := true_range high low close in
  let atr := rolling period window_mean tr in
  atr.

(** ** Exchange metadata: [get_coin_precision] and [get_price_precision] *)

(** One entry of [exchange_info['TradePairs']]; a key may be absent. *)
Record TradePair : Type := mkTradePair {
  Coin : option string;
  AmountPrecision : option Z;
  PricePrecision : option Z
}.

Record ExchangeInfo : Type := mkExchangeInfo {
  TradePairs : option (list (string * TradePair))
}.

(** [d[key]] on a key kept as an option: an absent key raises [KeyError]. *)
Definition key_of {V : Type} (o : option V) : result V :=
  match o with
  | Some v => Ok v
  | None => Raise KeyError
  end.

(** The [for info in exchange_info['TradePairs'].values()] loop of
    [get_coin_precision]. *)
Fixpoint coin_precision_loop (coin : string) (pairs : list (string * TradePair))
    : result (option Z) :=
  match pairs with
  | [] => Ok None
  | (_, info) :: rest =>
      c <- key_of (Coin info) ;;
      if String.eqb c coin then
        p <- key_of (AmountPrecision info) ;; Ok (Some p)
      else coin_precision_loop coin rest
  end.

(** [None] for [exchange_info] is a failed [get_exchange_info]; an empty
    reply has no ['TradePairs']. *)
Definition get_coin_precision (coin : string)
    (exchange_info : option ExchangeInfo) : result (option Z) :=
  match exchange_info with
  | None => Ok None
  | Some info =>
      match TradePairs info with
      | None => Ok None
      | Some pairs => coin_precision_loop coin pairs
      end
  end.

Fixpoint price_precision_loop (coin : string) (pairs : list (string * TradePair))
    : result (option Z) :=
  match pairs with
  | [] => Ok None
  | (_, info) :: rest =>
      c <- key_of (Coin info) ;;
      if String.eqb c coin then
        p <- key_of (PricePrecision info) ;; Ok (Some p)
      else price_precision_loop coin rest
  end.

Definition get_price_precision (coin : string)
    (exchange_info : option ExchangeInfo) : result (option Z) :=
  match exchange_info with
  | None => Ok None
  | Some info =>
      match TradePairs info with
      | None => Ok None
      | Some pairs => price_precision_loop coin pairs
      end
  end.

(** ** Requests: [place_order], [query_order], [cancel_order] *)

Section RequestBuilders.

Local Open Scope string_scope.

(** A request payload: a dict from strings to strings, in insertion order. *)
Definition Payload : Type := list (string * string).

(** [d[key] = value]: an existing key keeps its place. *)
Fixpoint dict_set {V : Type} (key : string) (value : V) (d : list (string * V))
    : list (string * V) :=
  match d with
  | [] => [(key, value)]
  | (k, v) :: rest =>
      if String.eqb k key then (k, value) :: rest
      else (k, v) :: dict_set key value rest
  end.

(** [c in s] for a one-character [c]. *)
Fixpoint contains_char (c : ascii) (s : string) : bool :=
  match s with
  | EmptyString => false
  | String a rest => Ascii.eqb a c || contains_char c rest
  end.

(** [str.upper] on ASCII text: the letters a-z move to A-Z, every other
    byte stays. *)
Definition upper_ascii (a : ascii) : ascii :=
  let n := nat_of_ascii a in
  if Nat.leb 97 n && Nat.leb n 122 then ascii_of_nat (n - 32) else a.

Fixpoint upper (s : string) : string :=
  match s with
  | EmptyString => EmptyString
  | String a rest => String (upper_ascii a) (upper rest)
  end.

Definition BASE_URL : string := "https://mock-api.roostoo.com".

(** What [_post_request] is called with: the URL and the payload. *)
Record Request : Type := mkRequest {
  url : string;
  payload : Payload
}.

(** An order id as the callers may pass it: an integer or a string. *)
Inductive OrderId : Type :=
| IntId (n : Z)
| StrId (s : string).

(** [if order_id:] and [str(order_id)]. *)
Definition truthy_id (order_id : option OrderId) : bool :=
  match order_id with
  | None => false
  | Some (IntId n) => negb (Z.eqb n 0)
  | Some (StrId s) => negb (String.eqb s "")
  end.

Definition str_id (order_id : option OrderId) : string :=
  match order_id with
  | None => "None"
  | Some (IntId n) => NilZero.string_of_int (Z.to_int n)
  | Some (StrId s) => s
  end.

(** [if pair:] on an optional string. *)
Definition truthy_str (s : option string) : bool :=
  match s with
  | None => false
  | Some s => negb (String.eqb s "")
  end.

Definition is_none {V : Type} (o : option V) : bool :=
  match o with
  | None => true
  | Some _ => false
  end.

Section Requests.

(** [str] on a number: the text Python prints for it. *)
Variable str : float -> string.

Definition str_price (price : option float) : string :=
  match price with
  | Some p => str p
  | None => "None"
  end.

(** [place_order]: the request it posts, or [None] when it returns before
    posting anything. *)
Definition place_order (pair_or_coin side : string) (quantity : float)
    (price : option float) (order_type : option string) : option Request :=
  let order_type :=
    match order_type with
    | Some t => t
    | None => if is_none price then "MARKET" else "LIMIT"
    end in
  if String.eqb order_type "LIMIT" && is_none price then None
  else
    let payload : Payload :=
      [("pair",
        if negb (contains_char "/" pair_or_coin)
        then String.append pair_or_coin "/USD" else pair_or_coin);
       ("side", upper side);
       ("type", upper order_type);
       ("quantity", str quantity)] in
    let payload :=
      if String.eqb order_type "LIMIT"
      then dict_set "price" (str_price price) payload else payload in
    Some (mkRequest (String.append BASE_URL "/v3/place_order") payload).

End Requests.

Definition query_order (order_id : option OrderId) (pair : option string)
    (pending_only : option bool) : Request :=
  let payload : Payload := [] in
  let payload :=
    if truthy_id order_id then dict_set "order_id" (str_id order_id) payload
    else if truthy_str pair then
      let payload := dict_set "pair" (get_default pair "") payload in
      match pending_only with
      | Some b => dict_set "pending_only" (if b then "TRUE" else "FALSE") payload
      | None => payload
      end
    else payload in
  mkRequest (String.append BASE_URL "/v3/query_order") payload.

Definition cancel_order (order_id : option OrderId) (pair : option string)
    : Request :=
  let payload : Payload := [] in
  let payload :=
    if truthy_id order_id then dict_set "order_id" (str_id order_id) payload
    else if truthy_str pair then dict_set "pair" (get_default pair "") payload
    else payload in
  mkRequest (String.append BASE_URL "/v3/cancel_order") payload.

(** ** Signing: [_get_signed_headers] *)

(** ["&".join(f"{k}={payload[k]}" for k in sorted(payload.keys()))]. *)
Definition total_params_of (payload : Payload) : string :=
  String.concat "&"
    (map (fun k => String.append k
                     (String.append "=" (get_default (dict_get k payload) "")))
       (sort_by String.ltb (fun k : string => k) (map fst payload))).

Section Signing.

(** [hmac.new(key, msg, sha256).hexdigest()], and the credentials read from
    the environment. *)
Variable hmac_sha256 : string -> string -> string.
Variables API_KEY API_SECRET : string.

(** [now] is the value of [_get_timestamp()] at the call.  The payload
    returned is the caller's dict after the update. *)
Definition _get_signed_headers (now : string) (payload : Payload)
    : Payload * Payload * string :=
  let payload := dict_set "timestamp" now payload in
  let total_params := total_params_of payload in
  let signature := hmac_sha256 API_SECRET total_params in
  ([("RST-API-KEY", API_KEY); ("MSG-SIGNATURE", signature)],
   payload, total_params).

(** [get_balance()] and [get_pending_count()] call [_get_signed_headers()]
    without an argument: they share the one dict that is the default value
    of [payload].  [default_payload] is that dict before the call; the call
    returns it updated. *)
Definition signed_default_call (now : string) (default_payload : Payload)
    : Payload * Payload * string :=
  _get_signed_headers now default_payload.

(** A run of such calls, each at its own time, from the dict as created at
    definition time: the [total_params] each call signs, and the dict left
    behind. *)
Fixpoint signed_default_calls (times : list string) (default_payload : Payload)
    : list string * Payload :=
  match times with
  | [] => ([], default_payload)
  | now :: rest =>
      let '(_, payload, total_params) := signed_default_call now default_payload in
      let '(signed, final) := signed_default_calls rest payload in
      (total_params :: signed, final)
  end.

End Signing.

End RequestBuilders.

(** ** Execution: the order loop of [Trading_Bot.run] *)

(** The requests sent so far, and how the code went on: a value, or the
    exception that stopped it. *)
Definition Exec (A : Type) : Type := list Request * result A.

Definition exec_ret {A : Type} (a : A) : Exec A := ([], Ok a).

Definition exec_bind {A B : Type} (m : Exec A) (k : A -> Exec B) : Exec B :=
  match snd m with
  | Ok a => (fst m ++ fst (k a), snd (k a))
  | Raise e => (fst m, Raise e)
  end.

Definition exec_lift {A : Type} (r : result A) : Exec A := ([], r).

(** Post the request of a [place_order] call, if it makes one. *)
Definition exec_post (r : option Request) : Exec unit :=
  match r with
  | Some request => ([request], Ok tt)
  | None => ([], Ok tt)
  end.

Notation "x <~ m ;; k" := (exec_bind m (fun x => k))
  (at level 61, m at next level, right associativity).

Section Execution.

(** [round(x, ndigits)] ([ndigits] is [None] when the precision lookup found
    nothing) and [str] on a number. *)
Variable py_round : float -> option Z -> result float.
Variable str : float -> string.

(** The test of the [if] branch, evaluated left to right with [and]. *)
Definition buy_guard (balance : option BalanceData) (safety : float)
    (decision : Decision) : result bool :=
  if Action_eqb (action decision) BUY then
    spot_wallet <- spot_wallet_of balance ;;
    if wallet_free spot_wallet "USD"%string >? safety then
      balance_USD <- key_of (balance_USD decision) ;;
      Ok (balance_USD <? Max_position decision)
    else Ok false
  else Ok false.

(** The body of [for decision in decision_list]. *)
Definition execute_decision (balance : option BalanceData)
    (exchange_info : option ExchangeInfo) (safety : float)
    (decision : Decision) : Exec unit :=
  let coin := target decision in
  guard <~ exec_lift (buy_guard balance safety decision) ;;
  if guard then
    precision <~ exec_lift (get_coin_precision coin exchange_info) ;;
    amount <~ exec_lift (py_round (amount decision) precision) ;;
    _ <~ exec_post (place_order str coin "BUY"%string amount None None) ;;
    sell_price <~ exec_lift (key_of (sell_price decision)) ;;
    precision <~ exec_lift (get_price_precision coin exchange_info) ;;
    price <~ exec_lift (py_round sell_price precision) ;;
    exec_post (place_order str coin "SELL"%string amount (Some price) None)
  else if Action_eqb (action decision) SELL then
    _ <~ exec_post (Some (cancel_order None (Some (pair_of coin)))) ;;
    precision <~ exec_lift (get_coin_precision coin exchange_info) ;;
    amount <~ exec_lift (py_round (amount decision) precision) ;;
    exec_post (place_order str coin "SELL"%string amount None None)
  else exec_ret tt.

(** The loop: an exception leaves it. *)
Fixpoint execute (balance : option BalanceData)
    (exchange_info : option ExchangeInfo) (safety : float)
    (decision_list : list Decision) : Exec unit :=
  match decision_list with
  | [] => exec_ret tt
  | decision :: rest =>
      _ <~ execute_decision balance exchange_info safety decision ;;
      execute balance exchange_info safety rest
  end.

(** One pass of the [while True] body: the requests it sends and the
    sellpoint it hands to the next pass. *)
Definition cycle_requests (f : CycleFeed) (exchange_info : option ExchangeInfo)
    (sellpoint safety safety_coefficient : float) : Exec float :=
  log <~ exec_lift (cycle f sellpoint safety safety_coefficient) ;;
  _ <~ execute (cycle_balance f) exchange_info safety (execution_order log) ;;
  exec_ret (new_sellpoint log).

End Execution.

Unset Implicit Arguments.

(** * Vocabulary of the properties

    Definitions the statements below use: the specification's own wording
    of the sizer and of the valuation, predicates on Decisions and
    thresholds, and sample inputs. *)

(** ** Position sizer *)

(** The sizer as the specification words it. *)
Definition floor_volatility (price sd : float) : float :=
  if sd =? zero then price * Fin 0.001 else sd.

Definition spec_max_position (price sd volRatio totalCapital riskCoefficient : float)
    : float :=
  totalCapital * riskCoefficient / ((floor_volatility price sd / price) / volRatio).

(** ** Portfolio valuation *)

(** Free plus locked quantity of one wallet entry. *)
Definition holding (info : BalanceInfo) : float :=
  get_default (Free info) zero + get_default (Lock info) zero.

(** The valuation as the specification words it, for a given notion of which
    entries are not valued through a price: the priced value of an entry
    (nothing when the entry is excluded, not positive, or its price lookup
    fails), and the sum of the priced values on top of the cash balance. *)
Definition priced_value (excluded : string -> bool)
    (get_ticker : string -> option Ticker) (entry : string * BalanceInfo)
    : option float :=
  if excluded (fst entry) then None
  else if holding (snd entry) >? zero then
    match ticker_ok (get_ticker (pair_of (fst entry))) with
    | Some ticker =>
        match last_price ticker (pair_of (fst entry)) with
        | Ok p => Some (holding (snd entry) * p)
        | Raise _ => None
        end
    | None => None
    end
  else None.

Fixpoint priced_values (excluded : string -> bool)
    (get_ticker : string -> option Ticker) (w : Wallet) : list float :=
  match w with
  | [] => []
  | entry :: rest =>
      match priced_value excluded get_ticker entry with
      | Some v => v :: priced_values excluded get_ticker rest
      | None => priced_values excluded get_ticker rest
      end
  end.

Definition spec_total_capital (excluded : string -> bool)
    (get_ticker : string -> option Ticker) (w : Wallet) : float :=
  fold_left add (priced_values excluded get_ticker w)
    (wallet_free w "USD" + wallet_lock w "USD").

(** Only the cash balance is valued at par (the specification's reading). *)
Definition cash_only (coin : string) : bool := String.eqb coin "USD".

(** The cash balance and USDT are not valued through a price (the code). *)
Definition cash_or_tether (coin : string) : bool :=
  String.eqb coin "USD" || String.eqb coin "USDT".

(** Every successful ticker reply the valuation asks for (one per entry
    other than USD and USDT with a positive holding) quotes the pair asked
    for. *)
Definition well_quoted (get_ticker : string -> option Ticker) (w : Wallet) : Prop :=
  forall coin info ticker,
    In (coin, info) w ->
    cash_or_tether coin = false ->
    (holding info >? zero) = true ->
    ticker_ok (get_ticker (pair_of coin)) = Some ticker ->
    exists p, last_price ticker (pair_of coin) = Ok p.

(** ** Evaluations *)

(** The intermediate values of a run of the [try] block that reaches the
    decision dict: price, maximum position, raw coefficient, wallet and last
    sample. *)
Definition evaluated (feed : Feed) (asset : string)
    (snapshot : option BalanceData) (p mp c : float) (w : Wallet)
    (latest : Row) : Prop :=
  exists ticker df tc,
    ticker_ok (feed_ticker feed) = Some ticker
    /\ last_price ticker (pair_of asset) = Ok p
    /\ feed_data feed = Some df
    /\ get_total_asset (feed_lookup feed) snapshot = Ok tc
    /\ calculate_max_position df tc (Fin 0.05) = Ok mp
    /\ calculate_coefficient df = Ok c
    /\ spot_wallet_of snapshot = Ok w
    /\ iloc_last df = Ok latest.

(** The action rule as it leaves [action] and [amount] in the dict. *)
Definition decided (threshold safety_coefficient : float)
    (p mp c held current_USD : float) (d : Decision) : Prop :=
  if c <? threshold then
    amount d = held /\ action d = (if held =? zero then NULL else SELL)
  else if c >? threshold + Fin 0.1 then
    exists q, py_div (current_USD * safety_coefficient) p = Ok q
      /\ amount d = py_min q (abs (mp * c) / p)
      /\ action d = (if amount d =? zero then NULL else BUY)
  else
    amount d = abs (mp * c) / p /\ action d = NULL.

(** The ways an evaluation fails: no market data, no usable ticker reply,
    no balance snapshot, or any exception raised in the [try] block. *)
Definition evaluation_fails (feed : Feed) (asset : string)
    (snapshot : option BalanceData) (threshold safety safety_coefficient : float)
    : Prop :=
  feed_data feed = None
  \/ ticker_ok (feed_ticker feed) = None
  \/ snapshot = None
  \/ exists e,
       strategy_body feed asset snapshot threshold safety safety_coefficient
       = Raise e.

(** ** Decisions, order and thresholds *)

(** A Decision whose stored coefficient is a number.  Every Decision
    [strategy] returns is one ([strategy_coefficient_capped]). *)
Definition numeric (d : Decision) : Prop := isna (coefficient d) = false.

(** A stored coefficient at most 5. *)
Definition capped (d : Decision) : Prop := (coefficient d <=? Fin 5) = true.

(** A threshold in the closed interval [0.5, 4.75]. *)
Definition in_band (sellpoint : float) : Prop :=
  (Fin 0.5 <=? sellpoint) = true /\ (sellpoint <=? Fin 4.75) = true.

(** [a] may stand before [b] in a list sorted by [key]: [b]'s key is not
    strictly smaller. *)
Definition in_order {A K : Type} (lt : K -> K -> bool) (key : A -> K)
    (a b : A) : Prop :=
  lt (key b) (key a) = false.

(** The number of elements of [l] that satisfy [f]. *)
Definition count_if {A : Type} (f : A -> bool) (l : list A) : nat :=
  length (filter f l).

(** [v] is the third-highest of the values [cs]: it occurs among them, at
    most two of them are strictly above it and at least three are at or
    above it. *)
Definition third_highest (v : float) (cs : list float) : Prop :=
  In v cs
  /\ (count_if (fun c => v <? c) cs <= 2)%nat
  /\ (3 <= count_if (fun c => v <=? c) cs)%nat.

(** ** Requests *)

Definition place_order_url : string := String.append BASE_URL "/v3/place_order".

Definition cancel_order_url : string := String.append BASE_URL "/v3/cancel_order".

(** The value a request's payload holds under [key]. *)
Definition field (key : string) (r : Request) : option string :=
  dict_get key (payload r).

Definition field_is (key value : string) (r : Request) : bool :=
  match field key r with
  | Some v => String.eqb v value
  | None => false
  end.

Definition is_cancel (r : Request) : bool := String.eqb (url r) cancel_order_url.

(** A [place_order] request of the given side and type. *)
Definition is_order (side type : string) (r : Request) : bool :=
  String.eqb (url r) place_order_url
  && field_is "side" side r && field_is "type" type r.

(** The requests a SELL Decision causes: the cancellation and the market
    sell. *)
Definition liquidates (r : Request) : bool :=
  is_cancel r || is_order "SELL" "MARKET" r.

(** The requests a BUY Decision causes: the market buy and the limit sell
    paired with it. *)
Definition acquires (r : Request) : bool :=
  is_order "BUY" "MARKET" r || is_order "SELL" "LIMIT" r.

(** No entry of [pairs] lists [coin]. *)
Definition unlisted (coin : string) (pairs : list (string * TradePair)) : Prop :=
  Forall (fun e => exists c, Coin (snd e) = Some c /\ c <> coin) pairs.


(** ** Sample inputs *)

Module Samples.

Open Scope string_scope.

(** A ticker reply quoting every pair at [p]. *)
Definition quote (p : Q) : Ticker :=
  mkTicker true [("BTC/USD", Fin p); ("ETH/USD", Fin p); ("USDT/USD", Fin p)].

Definition lookup (p : Q) : string -> option Ticker := fun _ => Some (quote p).

(** [cash] USD of free cash and [held] BTC. *)
Definition wallet (cash held : Q) : Wallet :=
  [("USD", mkInfo (Some (Fin cash)) (Some (Fin 0)));
   ("BTC", mkInfo (Some (Fin held)) (Some (Fin 0)))].

Definition snapshot (cash held : Q) : option BalanceData :=
  Some (mkBalance (Some (wallet cash held))).

(** Last sample: close 100, long average 100, baseline volatility 0.02. *)
Definition sample (short sd a : float) : Row :=
  mkRow (Fin 100) short (Fin 100) sd (Fin 0.02) a.

Definition feed_of (r : Row) : Feed :=
  mkFeed (Some (quote 100)) (Some [r]) (lookup 100).

(** The market-data provider is down: [get_ohlcv] returned [None]. *)
Definition outage : Feed := mkFeed (Some (quote 100)) None (lookup 100).

(** A ticker reply quoting four pairs at 100. *)
Definition market_quote : Ticker :=
  mkTicker true [("BTC/USD", Fin 100); ("ETH/USD", Fin 100);
                 ("BNB/USD", Fin 100); ("SOL/USD", Fin 100)].

(** A feed whose last sample gives the raw coefficient
    [(short - 100) / a]. *)
Definition trend (short a : Q) : Feed :=
  mkFeed (Some market_quote) (Some [sample (Fin short) (Fin 5) (Fin a)])
    (fun _ => Some market_quote).

(** A mixed market: SOL in a downtrend (coefficient -2), BTC, ETH and BNB in
    uptrends (coefficients 1, 4 and 1.5), no data for the other coins. *)
Definition market (coin : string) : Feed :=
  if String.eqb coin "BTC" then trend 102 2
  else if String.eqb coin "ETH" then trend 104 1
  else if String.eqb coin "BNB" then trend 103 2
  else if String.eqb coin "SOL" then trend 98 1
  else outage.

(** One cycle on that market with 5000 USD and 1 SOL, at threshold 0.5. *)
Definition mixed_cycle : CycleFeed :=
  mkCycleFeed
    (Some (mkBalance
             (Some [("USD", mkInfo (Some (Fin 5000)) (Some (Fin 0)));
                    ("SOL", mkInfo (Some (Fin 1)) (Some (Fin 0)))])))
    market.

Definition mixed_decisions : list Decision :=
  evaluate_coins coin_list mixed_cycle (Fin 0.5) (Fin 1000) (Fin 0.4).

End Samples.

(** * Properties *)

(** ** Floats: comparisons *)

Module FloatFacts.

Lemma Qcompare_Lt (a b : Q) : (a ?= b)%Q = Lt <-> (a < b)%Q.
Proof. symmetry. apply Qlt_alt. Qed.

Lemma Qcompare_Gt (a b : Q) : (a ?= b)%Q = Gt <-> (b < a)%Q.
Proof. symmetry. apply Qgt_alt. Qed.

Lemma Qcompare_Eq (a b : Q) : (a ?= b)%Q = Eq <-> (a == b)%Q.
Proof. symmetry. apply Qeq_alt. Qed.

Lemma Qlt_case (a b : Q) :
  match (a ?= b)%Q with Lt => (a < b)%Q | Eq => (a == b)%Q | Gt => (b < a)%Q end.
Proof.
  destruct (a ?= b)%Q eqn:E.
  - now apply Qcompare_Eq.
  - now apply Qcompare_Lt.
  - now apply Qcompare_Gt.
Qed.

Lemma Qeq_bool_case (a b : Q) :
  if Qeq_bool a b then (a == b)%Q else ~ (a == b)%Q.
Proof.
  destruct (Qeq_bool a b) eqn:E.
  - now apply Qeq_bool_iff.
  - intro H. apply Qeq_bool_iff in H. congruence.
Qed.

End FloatFacts.

(** Turns the boolean comparisons of finite values in the context and goal
    into rational (in)equalities. *)
Ltac q_compare :=
  repeat match goal with
  | H : context [(?a ?= ?b)%Q] |- _ =>
      let C := fresh "C" in
      pose proof (FloatFacts.Qlt_case a b) as C; destruct (a ?= b)%Q
  | |- context [(?a ?= ?b)%Q] =>
      let C := fresh "C" in
      pose proof (FloatFacts.Qlt_case a b) as C; destruct (a ?= b)%Q
  | H : context [Qeq_bool ?a ?b] |- _ =>
      let C := fresh "C" in
      pose proof (FloatFacts.Qeq_bool_case a b) as C; destruct (Qeq_bool a b)
  | |- context [Qeq_bool ?a ?b] =>
      let C := fresh "C" in
      pose proof (FloatFacts.Qeq_bool_case a b) as C; destruct (Qeq_bool a b)
  end.

(** Case analysis on floats followed by rational arithmetic. *)
Ltac float_cases :=
  unfold py_max, py_min, gtb, leb, sub, zero in *;
  repeat match goal with x : float |- _ => destruct x end;
  cbn [ltb eqb add mul neg abs np_div isna inf_times orb andb negb] in *;
  unfold inf_times, Qsign in *;
  try discriminate; try reflexivity;
  repeat (progress
            (q_compare;
             cbn [ltb eqb add mul neg abs np_div isna orb andb negb] in *));
  try discriminate; try reflexivity; try congruence;
  try (exfalso; lra); try lra.

Lemma ltb_irrefl (x : float) : (x <? x) = false.
Proof. float_cases. Qed.

Lemma ltb_asym (x y : float) : (x <? y) = true -> (y <? x) = false.
Proof. float_cases. Qed.

(** On values that are not NaN, "not less" is transitive. *)
Lemma ltb_negtrans (x y z : float) :
  isna x = false -> isna y = false -> isna z = false ->
  (y <? x) = false -> (z <? y) = false -> (z <? x) = false.
Proof. float_cases. Qed.

Lemma ltb_neg (x y : float) : (- x <? - y) = (y <? x).
Proof. float_cases. Qed.

Lemma leb_refl (x : float) : isna x = false -> (x <=? x) = true.
Proof. float_cases. Qed.

Lemma not_ltb_leb (x y : float) :
  isna x = false -> isna y = false -> (x <? y) = false -> (y <=? x) = true.
Proof. float_cases. Qed.

Lemma isna_neg (x : float) : isna (- x) = isna x.
Proof. float_cases. Qed.

Lemma isna_abs (x : float) : isna (abs x) = isna x.
Proof. float_cases. Qed.

(** The cap [min(5, c)] is never NaN and never above 5. *)
Lemma cap_not_nan (c : float) : isna (py_min (Fin 5) c) = false.
Proof. float_cases. Qed.

Lemma cap_le_5 (c : float) : (py_min (Fin 5) c <=? Fin 5) = true.
Proof. float_cases. Qed.

(** The BUY test and the SELL test exclude each other. *)
Lemma buy_excludes_sell (c t : float) :
  (c >? t + Fin 0.1) = true -> (c <? t) = false.
Proof. float_cases. Qed.

(** With a coefficient of 0 the BUY test fails for every threshold >= 0. *)
Lemma zero_never_buys (t : float) :
  (zero <=? t) = true -> (zero >? t + Fin 0.1) = false.
Proof. float_cases. Qed.

(** The threshold update stays in [0.5, 4.75] for a coefficient <= 5. *)
Lemma update_in_range (c : float) :
  (c <=? Fin 5) = true ->
  (Fin 0.5 <=? py_max (Fin 0.5) (c * Fin 0.95)) = true
  /\ (py_max (Fin 0.5) (c * Fin 0.95) <=? Fin 4.75) = true.
Proof. split; float_cases. Qed.

Lemma mul_comm (x y : float) : x * y = y * x.
Proof.
  destruct x as [| | |[a b]], y as [| | |[c d]]; try reflexivity.
  cbn. unfold Qmult. cbn. now rewrite Z.mul_comm, Pos.mul_comm.
Qed.

Lemma isna_scale (v : float) : isna v = false -> isna (v * Fin 0.95) = false.
Proof. float_cases. Qed.

Lemma py_max_lower (a b : float) :
  isna a = false -> (a <=? py_max a b) = true.
Proof. float_cases. Qed.

Lemma py_max_upper (a b : float) :
  isna a = false -> isna b = false -> (b <=? py_max a b) = true.
Proof. float_cases. Qed.

Lemma py_max_cases (a b : float) : py_max a b = a \/ py_max a b = b.
Proof. unfold py_max. destruct (b >? a); auto. Qed.

(** ** The stable sort *)

Section SortFacts.

Variables (A K : Type) (lt : K -> K -> bool) (key : A -> K).

(** The elements the order is well behaved on (for floats: not NaN). *)
Variable good : A -> Prop.

Hypothesis lt_asym : forall a b,
  good a -> good b -> lt (key a) (key b) = true -> lt (key b) (key a) = false.

Hypothesis lt_negtrans : forall a b c,
  good a -> good b -> good c ->
  lt (key b) (key a) = false -> lt (key c) (key b) = false ->
  lt (key c) (key a) = false.

Lemma insert_by_perm (x : A) (l : list A) :
  Permutation (x :: l) (insert_by lt key x l).
Proof.
  induction l as [|y rest IH]; cbn.
  - apply Permutation_refl.
  - destruct (lt (key y) (key x)).
    + apply perm_trans with (y :: x :: rest).
      * apply perm_swap.
      * now apply perm_skip.
    + apply Permutation_refl.
Qed.

Lemma sort_by_perm (l : list A) : Permutation l (sort_by lt key l).
Proof.
  induction l as [|x rest IH]; cbn.
  - apply perm_nil.
  - apply perm_trans with (x :: sort_by lt key rest).
    + now apply perm_skip.
    + apply insert_by_perm.
Qed.

Lemma sort_by_good (l : list A) : Forall good l -> Forall good (sort_by lt key l).
Proof.
  intro H. eapply Permutation_Forall; [apply sort_by_perm | exact H].
Qed.

Lemma insert_by_sorted (x : A) (l : list A) :
  good x -> Forall good l ->
  StronglySorted (in_order lt key) l -> StronglySorted (in_order lt key) (insert_by lt key x l).
Proof.
  intros Gx Gl Sl. induction Sl as [|y rest Srest IH Hy]; cbn.
  - constructor; constructor.
  - inversion Gl as [|? ? Gy Grest]; subst.
    destruct (lt (key y) (key x)) eqn:E.
    + constructor.
      * now apply IH.
      * eapply Permutation_Forall; [apply insert_by_perm|].
        constructor; [|exact Hy].
        unfold in_order. now apply lt_asym.
    + constructor.
      * now constructor.
      * constructor; [exact E|].
        rewrite Forall_forall in *. intros z Hz.
        unfold in_order. apply lt_negtrans with y; auto.
        now apply Hy.
Qed.

Lemma sort_by_sorted (l : list A) :
  Forall good l -> StronglySorted (in_order lt key) (sort_by lt key l).
Proof.
  induction l as [|x rest IH]; intro G; cbn.
  - constructor.
  - inversion G; subst. apply insert_by_sorted; auto using sort_by_good.
Qed.

End SortFacts.

(** In a strongly sorted list the relation holds between any two positions
    taken from left to right. *)
Lemma StronglySorted_nth_error (A : Type) (R : A -> A -> Prop) (l : list A) :
  StronglySorted R l ->
  forall i j a b, (i < j)%nat ->
    nth_error l i = Some a -> nth_error l j = Some b -> R a b.
Proof.
  induction 1 as [|x rest Srest IH Hx]; intros i j a b Hij Ha Hb.
  - destruct i; discriminate.
  - destruct j as [|j]; [lia|]. cbn in Hb.
    destruct i as [|i]; cbn in Ha.
    + injection Ha as <-. rewrite Forall_forall in Hx.
      apply Hx. eapply nth_error_In; eauto.
    + apply (IH i j); auto. lia.
Qed.

(** Counting is invariant under permutation. *)
Lemma count_if_perm (A : Type) (f : A -> bool) (l l' : list A) :
  Permutation l l' -> count_if f l = count_if f l'.
Proof.
  unfold count_if. induction 1; cbn.
  - reflexivity.
  - destruct (f x); cbn; congruence.
  - destruct (f x), (f y); reflexivity.
  - congruence.
Qed.

(** ** One evaluation of [strategy] *)

Lemma iloc_last_app (pre : DataFrame) (r : Row) : iloc_last (pre ++ [r]) = Ok r.
Proof.
  induction pre as [|x pre IH]; [reflexivity|].
  cbn. destruct (pre ++ [r]) eqn:E; [|exact IH].
  destruct pre; discriminate.
Qed.

Section Evaluation.

Variables (feed : Feed) (asset : string) (snapshot : option BalanceData).
Variables (threshold safety safety_coefficient : float).

Lemma strategy_body_inv (d : Decision) :
  strategy_body feed asset snapshot threshold safety safety_coefficient = Ok d ->
  exists p mp c w latest,
    evaluated feed asset snapshot p mp c w latest
    /\ decided threshold safety_coefficient p mp c
         (wallet_free w asset + wallet_lock w asset) (wallet_free w "USD") d
    /\ target d = asset
    /\ coefficient d = py_min (Fin 5) c
    /\ Max_position d = mp
    /\ balance d = Some (wallet_free w asset + wallet_lock w asset)
    /\ price d = Some p
    /\ balance_USD d = Some ((wallet_free w asset + wallet_lock w asset) * p)
    /\ spending d = Some (amount d * p)
    /\ sell_price d = Some (p + Fin 3 * stdV latest)
    /\ coin d = None.
Proof.
  unfold strategy_body. intro H.
  destruct (ticker_ok (feed_ticker feed)) as [ticker|] eqn:Et; cbn in H.
  2: { destruct (feed_data feed); cbn in H; [|discriminate].
       destruct (get_total_asset _ _); cbn in H; [|discriminate].
       destruct (calculate_max_position _ _ _); cbn in H; [|discriminate].
       destruct (calculate_coefficient _); cbn in H; discriminate. }
  destruct (last_price ticker (pair_of asset)) as [p|] eqn:Ep; cbn in H; [|discriminate].
  destruct (feed_data feed) as [df|] eqn:Ed; cbn in H; [|discriminate].
  destruct (get_total_asset _ _) as [tc|] eqn:Etc; cbn in H; [|discriminate].
  destruct (calculate_max_position _ _ _) as [mp|] eqn:Emp; cbn in H; [|discriminate].
  destruct (calculate_coefficient _) as [c|] eqn:Ec; cbn in H; [|discriminate].
  destruct (spot_wallet_of snapshot) as [w|] eqn:Ew; cbn in H; [|discriminate].
  exists p, mp, c, w.
  destruct (c >? threshold + Fin 0.1) eqn:Ebuy; cbn in H.
  - destruct (py_div _ p) as [q|] eqn:Eq; cbn in H; [|discriminate].
    destruct (iloc_last df) as [latest|] eqn:El; cbn in H; [|discriminate].
    exists latest. injection H as <-. cbn.
    split; [exists ticker, df, tc; repeat split; assumption|].
    split; [|repeat split].
    unfold decided. cbn.
    destruct (c <? threshold) eqn:Esell; cbn.
    + split; reflexivity.
    + rewrite Ebuy. exists q. repeat split; try assumption.
  - destruct (iloc_last df) as [latest|] eqn:El; cbn in H; [|discriminate].
    exists latest. injection H as <-. cbn.
    split; [exists ticker, df, tc; repeat split; assumption|].
    split; [|repeat split].
    unfold decided. cbn.
    destruct (c <? threshold) eqn:Esell; cbn.
    + split; reflexivity.
    + rewrite Ebuy. split; [reflexivity|].
      now destruct (_ =? zero).
Qed.

(** A raised exception yields the neutral decision. *)
Lemma strategy_raise (e : exn) :
  strategy_body feed asset snapshot threshold safety safety_coefficient = Raise e ->
  strategy feed asset snapshot threshold safety safety_coefficient
  = neutral_decision asset.
Proof. unfold strategy. now intros ->. Qed.

(** Whatever happens, the stored coefficient is a number not above 5. *)
Lemma strategy_coefficient_capped :
  let d := strategy feed asset snapshot threshold safety safety_coefficient in
  isna (coefficient d) = false /\ (coefficient d <=? Fin 5) = true.
Proof.
  cbn. unfold strategy.
  destruct (strategy_body _ _ _ _ _ _) as [d|e] eqn:E.
  - apply strategy_body_inv in E.
    destruct E as (p & mp & c & w & latest & _ & _ & _ & -> & _).
    split; [apply cap_not_nan | apply cap_le_5].
  - split; reflexivity.
Qed.

End Evaluation.

(** ** Position sizer *)

(** C9. For every price, stdV, volRatio, totalCapital and riskCoefficient
    (the last sample of any frame), [calculate_max_position] returns
    totalCapital * riskCoefficient / ((stdV' / price) / volRatio) with
    stdV' = price * 0.001 when stdV == 0 and stdV' = stdV otherwise; and when
    stdV == 0 the result is the one obtained from the frame whose last stdV
    is replaced by price * 0.001. *)
Theorem calculate_max_position_formula
    (pre : DataFrame) (price sma lma sd volRatio a totalCapital riskCoefficient : float) :
  calculate_max_position (pre ++ [mkRow price sma lma sd volRatio a])
    totalCapital riskCoefficient
  = Ok (spec_max_position price sd volRatio totalCapital riskCoefficient)
  /\ ((sd =? zero) = true ->
      calculate_max_position (pre ++ [mkRow price sma lma sd volRatio a])
        totalCapital riskCoefficient
      = calculate_max_position
          (pre ++ [mkRow price sma lma (price * Fin 0.001) volRatio a])
          totalCapital riskCoefficient).
Proof.
  unfold calculate_max_position. rewrite !iloc_last_app. cbn.
  split; [reflexivity|].
  intros ->. now destruct (price * Fin 0.001 =? zero).
Qed.

Lemma calculate_max_position_formula_witness :
  calculate_max_position [Samples.sample (Fin 100) (Fin 0) (Fin 5)] (Fin 1000) (Fin 0.05)
  = calculate_max_position [Samples.sample (Fin 100) (Fin 100 * Fin 0.001) (Fin 5)]
      (Fin 1000) (Fin 0.05).
Proof.
  apply (calculate_max_position_formula [] (Fin 100) (Fin 100) (Fin 100)
           (Fin 0) (Fin 0.02) (Fin 5) (Fin 1000) (Fin 0.05)).
  reflexivity.
Defined.

(** ** Failures *)

Lemma evaluation_fails_raises (feed : Feed) (asset : string)
    (snapshot : option BalanceData) (threshold safety safety_coefficient : float) :
  evaluation_fails feed asset snapshot threshold safety safety_coefficient ->
  exists e,
    strategy_body feed asset snapshot threshold safety safety_coefficient = Raise e.
Proof.
  intros [H | [H | [H | H]]]; [| | |exact H];
    destruct (strategy_body _ _ _ _ _ _) as [d|e] eqn:E; eauto;
    apply strategy_body_inv in E;
    destruct E as (p & mp & c & w & latest & (t & df & tc & E1 & _ & E3 & _ & _ & _ & E7 & _) & _);
    try congruence.
  subst snapshot. discriminate.
Qed.

Lemma evaluate_coins_length (coins : list string) (f : CycleFeed)
    (sellpoint safety safety_coefficient : float) :
  length (evaluate_coins coins f sellpoint safety safety_coefficient)
  = length coins.
Proof. unfold evaluate_coins. apply length_map. Qed.

(** C8. Whenever the evaluation of an asset fails (missing data, provider
    error, or an exception anywhere in the [try] block), [strategy] returns
    the neutral Decision: action NULL, amount 0, coefficient 0 and
    Max_position 0; and the cycle's loop over the coins still yields one
    Decision per coin, the failed asset's being that neutral one. *)
Theorem failure_yields_neutral_decision
    (feed : Feed) (asset : string) (snapshot : option BalanceData)
    (threshold safety safety_coefficient : float) :
  evaluation_fails feed asset snapshot threshold safety safety_coefficient ->
  let d := strategy feed asset snapshot threshold safety safety_coefficient in
  (d = neutral_decision asset
   /\ action d = NULL /\ amount d = zero /\ coefficient d = zero
   /\ Max_position d = zero)
  /\ forall (coins : list string) (f : CycleFeed),
       In asset coins -> cycle_feed f asset = feed -> cycle_balance f = snapshot ->
       let decision_list :=
         evaluate_coins coins f threshold safety safety_coefficient in
       length decision_list = length coins
       /\ In (set_coin asset (neutral_decision asset)) decision_list.
Proof.
  intros F. apply evaluation_fails_raises in F. destruct F as [e E].
  cbn. rewrite (strategy_raise _ _ _ _ _ _ _ E).
  split; [repeat split|].
  intros coins f Hin Hf Hb. split; [apply evaluate_coins_length|].
  unfold evaluate_coins. apply in_map_iff. exists asset. split; [|exact Hin].
  rewrite Hf, Hb, (strategy_raise _ _ _ _ _ _ _ E). reflexivity.
Qed.

Lemma failure_yields_neutral_decision_witness :
  action (strategy Samples.outage "BTC"%string (Samples.snapshot 1000 1) (Fin 0.5)
            (Fin 1000) (Fin 0.4)) = NULL.
Proof.
  apply (failure_yields_neutral_decision Samples.outage "BTC"%string
           (Samples.snapshot 1000 1) (Fin 0.5) (Fin 1000) (Fin 0.4)).
  left. reflexivity.
Defined.

(** ** The action rule *)

Section ActionRule.

Variables (feed : Feed) (asset : string) (snapshot : option BalanceData).
Variables (threshold safety safety_coefficient : float).

(** Once the inputs are available the [try] block is the action rule on
    them. *)
Lemma strategy_body_eval (p mp c : float) (w : Wallet) (latest : Row) :
  evaluated feed asset snapshot p mp c w latest ->
  strategy_body feed asset snapshot threshold safety safety_coefficient
  = (bought <-
       (if c >? threshold + Fin 0.1 then
          cash_amount <- py_div (wallet_free w "USD" * safety_coefficient) p ;;
          Ok (BUY, py_min cash_amount (abs (mp * c) / p))
        else Ok (NULL, abs (mp * c) / p)) ;;
     let held := wallet_free w asset + wallet_lock w asset in
     let sold := if c <? threshold then (SELL, held) else bought in
     Ok {| target := asset;
           action := if snd sold =? zero then NULL else fst sold;
           amount := snd sold;
           coefficient := py_min (Fin 5) c; Max_position := mp;
           balance := Some held; price := Some p;
           balance_USD := Some (held * p);
           spending := Some (snd sold * p);
           sell_price := Some (p + Fin 3 * stdV latest); coin := None |}).
Proof.
  intros (ticker & df & tc & E1 & E2 & E3 & E4 & E5 & E6 & E7 & E8).
  unfold strategy_body. rewrite E1, E2. cbn. rewrite E3. cbn.
  rewrite E4. cbn. rewrite E5. cbn. rewrite E6. cbn. rewrite E7. cbn.
  destruct (c >? threshold + Fin 0.1); cbn.
  - destruct (py_div _ p); cbn; [|reflexivity]. rewrite E8. reflexivity.
  - rewrite E8. reflexivity.
Qed.

End ActionRule.

(** ** Undefined or zero ATR *)

Lemma calculate_coefficient_no_atr (df : DataFrame) (latest : Row) :
  iloc_last df = Ok latest ->
  isna (atr latest) || (atr latest =? zero) = true ->
  calculate_coefficient df = Ok zero.
Proof.
  intros E H. unfold calculate_coefficient. rewrite E. cbn. now rewrite H.
Qed.

(** C1, as stated, fails: with a zero ATR (and with a NaN ATR), threshold
    0.5 and one unit of the asset held, the coefficient is 0 and the
    Decision is a SELL of the whole holding, not NULL. *)
Lemma undefined_atr_can_sell :
  let zero_atr := Samples.sample (Fin 100) (Fin 2) (Fin 0) in
  let nan_atr := Samples.sample (Fin 100) (Fin 2) NaN in
  let decide r :=
    strategy (Samples.feed_of r) "BTC"%string (Samples.snapshot 1000 1) (Fin 0.5)
      (Fin 1000) (Fin 0.4) in
  (atr zero_atr =? zero) = true /\ isna (atr nan_atr) = true
  /\ (zero <=? Fin 0.5) = true
  /\ calculate_coefficient [zero_atr] = Ok zero
  /\ calculate_coefficient [nan_atr] = Ok zero
  /\ action (decide zero_atr) = SELL /\ amount (decide zero_atr) = Fin 1
  /\ action (decide nan_atr) = SELL /\ amount (decide nan_atr) = Fin 1
  /\ action (decide zero_atr) <> NULL.
Proof. cbv zeta. repeat split; try reflexivity. discriminate. Qed.

(** C1, amended. For every price series whose latest ATR is NaN or zero,
    [calculate_coefficient] yields 0, and for every threshold >= 0, every
    balance snapshot and every cash level the Decision has coefficient 0 and
    is never a BUY.  Its action is NULL when the threshold is 0; it is SELL
    only when the threshold is positive and the held balance is non-zero,
    the amount then being the whole held balance, and in that situation a
    successful evaluation always is SELL. *)
Theorem undefined_atr_decision
    (feed : Feed) (asset : string) (snapshot : option BalanceData)
    (threshold safety safety_coefficient : float)
    (df : DataFrame) (latest : Row) :
  feed_data feed = Some df ->
  iloc_last df = Ok latest ->
  isna (atr latest) || (atr latest =? zero) = true ->
  (zero <=? threshold) = true ->
  let d := strategy feed asset snapshot threshold safety safety_coefficient in
  calculate_coefficient df = Ok zero
  /\ coefficient d = zero
  /\ action d <> BUY
  /\ ((threshold =? zero) = true -> action d = NULL)
  /\ (action d = SELL ->
      (zero <? threshold) = true /\ balance d = Some (amount d)
      /\ (amount d =? zero) = false)
  /\ ((exists d',
         strategy_body feed asset snapshot threshold safety safety_coefficient
         = Ok d') ->
      (zero <? threshold) = true ->
      forall held, balance d = Some held -> (held =? zero) = false ->
      action d = SELL /\ amount d = held).
Proof.
  intros Hdata Hlast Hatr Hthr.
  pose proof (calculate_coefficient_no_atr df latest Hlast Hatr) as Hc.
  cbv zeta. split; [exact Hc|].
  unfold strategy.
  destruct (strategy_body _ _ _ _ _ _) as [d|e] eqn:E.
  - apply strategy_body_inv in E.
    destruct E as (p & mp & c & w & latest' & Ev & Dec & _ & Hcoef & _ & Hbal & _).
    destruct Ev as (t & df' & tc & _ & _ & Hdata' & _ & _ & Hc' & _ & _).
    assert (c = zero) by congruence. subst c.
    rewrite Hcoef, Hbal. unfold decided in Dec.
    rewrite (zero_never_buys threshold Hthr) in Dec.
    set (held := wallet_free w asset + wallet_lock w asset) in *.
    split; [reflexivity|].
    destruct (zero <? threshold) eqn:Esell.
    + destruct Dec as [Ham Hact]. rewrite Ham, Hact.
      split; [destruct (held =? zero); discriminate|].
      split; [intro H; exfalso; clear -H Esell; float_cases|].
      split.
      * destruct (held =? zero) eqn:Eheld; [discriminate|]. auto.
      * intros _ _ held' [= <-] ->. auto.
    + destruct Dec as [_ Hact]. rewrite Hact.
      split; [discriminate|]. split; [reflexivity|].
      split; [discriminate|]. intros _ H. discriminate.
  - cbn. split; [reflexivity|]. split; [discriminate|].
    split; [reflexivity|]. split; [discriminate|].
    intros [d' H]. discriminate.
Qed.

Lemma undefined_atr_decision_witness :
  action (strategy (Samples.feed_of (Samples.sample (Fin 100) (Fin 2) NaN))
            "BTC"%string (Samples.snapshot 1000 1) (Fin 0) (Fin 1000) (Fin 0.4))
  = NULL.
Proof.
  refine (proj1 (proj2 (proj2 (proj2
    (undefined_atr_decision
       (Samples.feed_of (Samples.sample (Fin 100) (Fin 2) NaN))
       "BTC"%string (Samples.snapshot 1000 1) (Fin 0) (Fin 1000) (Fin 0.4)
       [Samples.sample (Fin 100) (Fin 2) NaN]
       (Samples.sample (Fin 100) (Fin 2) NaN)
       eq_refl eq_refl eq_refl eq_refl)))) eq_refl).
Defined.

(** ** Action and amount *)

(** C2, as stated, fails: on the first cycle (threshold 0) a coefficient of
    0.05 meets neither the BUY nor the SELL test; the Decision is NULL but
    keeps the amount 0.0275 it was created with. *)
Lemma null_keeps_initial_amount :
  let d :=
    strategy (Samples.feed_of (Samples.sample (Fin 100.25) (Fin 2) (Fin 5)))
      "BTC"%string (Samples.snapshot 1000 1) (Fin 0) (Fin 1000) (Fin 0.4) in
  (coefficient d =? Fin 0.05) = true
  /\ (coefficient d >? Fin 0 + Fin 0.1) = false
  /\ (coefficient d <? Fin 0) = false
  /\ action d = NULL
  /\ (amount d =? Fin 0.0275) = true
  /\ (amount d =? zero) = false.
Proof. cbv zeta. repeat split; reflexivity. Qed.

(** C2, amended. Every Decision returned by [strategy] has exactly one of
    the actions BUY, SELL, NULL; an amount equal to 0 forces the action
    NULL, but not conversely: whenever neither the BUY test
    (coefficient > threshold + 0.1) nor the SELL test (coefficient <
    threshold) holds, the Decision is NULL with the amount
    |maxPosition * coefficient| / price it was created with, and a NULL
    Decision has either amount 0 or arises in that way. *)
Theorem action_amount_rule
    (feed : Feed) (asset : string) (snapshot : option BalanceData)
    (threshold safety safety_coefficient : float) :
  let d := strategy feed asset snapshot threshold safety safety_coefficient in
  (action d = BUY \/ action d = SELL \/ action d = NULL)
  /\ ((amount d =? zero) = true -> action d = NULL)
  /\ (forall p mp c w latest,
        evaluated feed asset snapshot p mp c w latest ->
        (c >? threshold + Fin 0.1) = false -> (c <? threshold) = false ->
        action d = NULL /\ amount d = abs (mp * c) / p)
  /\ (action d = NULL ->
      (amount d =? zero) = true
      \/ exists p mp c w latest,
           evaluated feed asset snapshot p mp c w latest
           /\ (c >? threshold + Fin 0.1) = false /\ (c <? threshold) = false
           /\ amount d = abs (mp * c) / p).
Proof.
  cbv zeta. split; [destruct (action _); auto|].
  split; [|split].
  - unfold strategy.
    destruct (strategy_body _ _ _ _ _ _) as [d|e] eqn:E; [|reflexivity].
    apply strategy_body_inv in E.
    destruct E as (p & mp & c & w & latest & _ & Dec & _).
    unfold decided in Dec. intro Z.
    destruct (c <? threshold).
    + destruct Dec as [Ham Hact]. rewrite Hact, <- Ham, Z. reflexivity.
    + destruct (c >? threshold + Fin 0.1).
      * destruct Dec as (q & _ & _ & Hact). rewrite Hact, Z. reflexivity.
      * apply Dec.
  - intros p mp c w latest Ev B S. unfold strategy.
    rewrite (strategy_body_eval _ _ _ _ _ _ _ _ _ _ _ Ev), B. cbn.
    rewrite S. cbn. split; [|reflexivity].
    now destruct (_ =? zero).
  - unfold strategy.
    destruct (strategy_body _ _ _ _ _ _) as [d|e] eqn:E; [|left; reflexivity].
    apply strategy_body_inv in E.
    destruct E as (p & mp & c & w & latest & Ev & Dec & _).
    unfold decided in Dec. intro N.
    destruct (c <? threshold) eqn:S.
    + destruct Dec as [Ham Hact]. left. rewrite Ham.
      destruct (_ =? zero); [reflexivity|congruence].
    + destruct (c >? threshold + Fin 0.1) eqn:B.
      * destruct Dec as (q & _ & _ & Hact). left.
        destruct (amount d =? zero); [reflexivity|congruence].
      * right. exists p, mp, c, w, latest. intuition.
Qed.

(** ** The sell price *)

(** C5, as stated, fails: a SELL Decision and a NULL Decision of successful
    evaluations both carry a sell price (100 + 3 * 2 = 106). *)
Lemma sell_and_null_carry_sell_price :
  let sell :=
    strategy (Samples.feed_of (Samples.sample (Fin 100) (Fin 2) (Fin 0)))
      "BTC"%string (Samples.snapshot 1000 1) (Fin 0.5) (Fin 1000) (Fin 0.4) in
  let null :=
    strategy (Samples.feed_of (Samples.sample (Fin 100.25) (Fin 2) (Fin 5)))
      "BTC"%string (Samples.snapshot 1000 1) (Fin 0) (Fin 1000) (Fin 0.4) in
  action sell = SELL /\ sell_price sell = Some (Fin 100 + Fin 3 * Fin 2)
  /\ action null = NULL /\ sell_price null = Some (Fin 100 + Fin 3 * Fin 2).
Proof. cbv zeta. repeat split; reflexivity. Qed.

(** C5, amended. A Decision carries [sell_price] exactly when its
    evaluation did not fail: every Decision of a successful evaluation,
    whether BUY, SELL or NULL, has sell_price = price + 3 * latest stdV, and
    only the neutral Decision of a failed evaluation has none.  In
    particular every BUY Decision carries one. *)
Theorem sell_price_presence
    (feed : Feed) (asset : string) (snapshot : option BalanceData)
    (threshold safety safety_coefficient : float) :
  let d := strategy feed asset snapshot threshold safety safety_coefficient in
  (sell_price d = None <->
   exists e,
     strategy_body feed asset snapshot threshold safety safety_coefficient
     = Raise e)
  /\ ((exists d',
         strategy_body feed asset snapshot threshold safety safety_coefficient
         = Ok d') ->
      exists p mp c w latest,
        evaluated feed asset snapshot p mp c w latest
        /\ price d = Some p
        /\ sell_price d = Some (p + Fin 3 * stdV latest))
  /\ (action d = BUY -> sell_price d <> None).
Proof.
  cbv zeta. unfold strategy.
  destruct (strategy_body _ _ _ _ _ _) as [d|e] eqn:E.
  - apply strategy_body_inv in E.
    destruct E as (p & mp & c & w & latest & Ev & _ & _ & _ & _ & _ & Hp & _ & _ & Hs & _).
    rewrite Hs. split; [split|split].
    + discriminate.
    + intros [e H]. discriminate.
    + intros _. exists p, mp, c, w, latest. auto.
    + discriminate.
  - cbn. split; [split|split].
    + eauto.
    + reflexivity.
    + intros [d' H]. discriminate.
    + discriminate.
Qed.

(** ** The BUY branch *)

(** C6, as stated, fails twice.  With a raw coefficient of 10 (stored as 5
    after the cap) and threshold 0.5 the BUY amount is sized with the raw 10:
    2.75 units, not the 1.375 units the capped coefficient would give.  And
    with no free cash the sized amount is 0, so the Decision is NULL, not
    BUY, although coefficient > threshold + 0.1. *)
Lemma buy_uses_raw_coefficient :
  let r := Samples.sample (Fin 150) (Fin 4) (Fin 5) in
  let d :=
    strategy (Samples.feed_of r) "BTC"%string (Samples.snapshot 1000 1)
      (Fin 0.5) (Fin 1000) (Fin 0.4) in
  let broke :=
    strategy (Samples.feed_of r) "BTC"%string (Samples.snapshot 0 1)
      (Fin 0.5) (Fin 1000) (Fin 0.4) in
  let claimed_amount c :=
    py_min (Fin 1000 * Fin 0.4 / Fin 100) (abs (Max_position d * c) / Fin 100) in
  ((exists c, calculate_coefficient [r] = Ok c /\ (c =? Fin 10) = true)
   /\ coefficient d = Fin 5
   /\ (coefficient d >? Fin 0.5 + Fin 0.1) = true
   /\ action d = BUY
   /\ (amount d =? Fin 2.75) = true
   /\ (claimed_amount (coefficient d) =? Fin 1.375) = true
   /\ (amount d =? claimed_amount (coefficient d)) = false)
  /\ ((coefficient broke >? Fin 0.5 + Fin 0.1) = true
      /\ sell_price broke = Some (Fin 100 + Fin 3 * Fin 4)
      /\ (amount broke =? zero) = true
      /\ action broke = NULL /\ action broke <> BUY).
Proof.
  cbv zeta. split; [split; [eexists; split; reflexivity|]|];
    repeat split; try reflexivity.
  discriminate.
Qed.

(** C6, amended. For every evaluation whose raw coefficient (the value
    returned by [calculate_coefficient], before the cap) exceeds
    threshold + 0.1 and whose price is not 0, the evaluation succeeds and the
    Decision has amount = min(cashAvailable * safetyFraction / price,
    |maxPosition * coefficient| / price) with that raw coefficient,
    sell_price = price + 3 * latest stdV, and action BUY unless that amount
    equals 0, in which case the action is NULL. *)
Theorem buy_decision
    (feed : Feed) (asset : string) (snapshot : option BalanceData)
    (threshold safety safety_coefficient : float)
    (p mp c : float) (w : Wallet) (latest : Row) :
  evaluated feed asset snapshot p mp c w latest ->
  (c >? threshold + Fin 0.1) = true ->
  (p =? zero) = false ->
  let d := strategy feed asset snapshot threshold safety safety_coefficient in
  strategy_body feed asset snapshot threshold safety safety_coefficient = Ok d
  /\ amount d
     = py_min (wallet_free w "USD" * safety_coefficient / p) (abs (mp * c) / p)
  /\ sell_price d = Some (p + Fin 3 * stdV latest)
  /\ action d = (if amount d =? zero then NULL else BUY)
  /\ coefficient d = py_min (Fin 5) c
  /\ Max_position d = mp.
Proof.
  intros Ev B P. cbv zeta. unfold strategy.
  rewrite (strategy_body_eval _ _ _ _ _ _ _ _ _ _ _ Ev), B.
  unfold py_div. rewrite P. cbn.
  rewrite (buy_excludes_sell c threshold B). cbn.
  repeat split.
Qed.

Lemma buy_decision_witness :
  action
    (strategy (Samples.feed_of (Samples.sample (Fin 150) (Fin 4) (Fin 5)))
       "BTC"%string (Samples.snapshot 1000 1) (Fin 0.5) (Fin 1000) (Fin 0.4))
  = BUY.
Proof.
  eassert (Ev : evaluated
                  (Samples.feed_of (Samples.sample (Fin 150) (Fin 4) (Fin 5)))
                  "BTC"%string (Samples.snapshot 1000 1) _ _ _ _ _).
  { eexists _, _, _. repeat split; reflexivity. }
  exact (proj1 (proj2 (proj2 (proj2
    (buy_decision _ _ _ (Fin 0.5) (Fin 1000) (Fin 0.4) _ _ _ _ _
       Ev eq_refl eq_refl))))).
Defined.

(** ** Portfolio valuation *)

Lemma valuation_loop_sum (get_ticker : string -> option Ticker) (items : Wallet) :
  well_quoted get_ticker items ->
  forall total_usd,
    valuation_loop get_ticker items total_usd
    = Ok (fold_left add (priced_values cash_or_tether get_ticker items) total_usd).
Proof.
  induction items as [|[coin info] rest IH]; intros W total_usd; [reflexivity|].
  assert (Wrest : well_quoted get_ticker rest).
  { intros c i t Hin. apply (W c i t). now right. }
  pose proof (W coin info) as Wc.
  cbn [valuation_loop priced_values]. unfold priced_value, cash_or_tether in *.
  cbn [fst snd]. fold (holding info).
  destruct (String.eqb coin "USD"); cbn [negb andb orb] in *; [now apply IH|].
  destruct (String.eqb coin "USDT"); cbn [negb andb orb] in *; [now apply IH|].
  destruct (holding info >? zero); [|now apply IH].
  destruct (ticker_ok (get_ticker (pair_of coin))) as [ticker|] eqn:Et;
    [|now apply IH].
  destruct (Wc ticker (or_introl eq_refl) eq_refl eq_refl eq_refl) as [p Hp].
  rewrite Hp. cbn. now apply IH.
Qed.

(** C7, as stated, fails: USDT is a held asset other than the cash balance,
    yet with 50 USDT held and a successful USDT/USD quote of 1 the total is
    the 100 USD of cash alone, not 150. *)
Lemma tether_is_not_valued :
  let w : Wallet :=
    [("USD", mkInfo (Some (Fin 60)) (Some (Fin 40)));
     ("USDT", mkInfo (Some (Fin 50)) None)]%string in
  let get_ticker := Samples.lookup 1 in
  (holding (mkInfo (Some (Fin 50)) None) >? zero) = true
  /\ (exists ticker,
        ticker_ok (get_ticker (pair_of "USDT")) = Some ticker
        /\ last_price ticker (pair_of "USDT") = Ok (Fin 1))
  /\ get_total_asset get_ticker (Some (mkBalance (Some w))) = Ok (Fin 60 + Fin 40)
  /\ (spec_total_capital cash_only get_ticker w =? Fin 150) = true
  /\ (Fin 60 + Fin 40 =? spec_total_capital cash_only get_ticker w) = false.
Proof.
  cbv zeta. split; [reflexivity|].
  split; [eexists; split; reflexivity|].
  repeat split; reflexivity.
Qed.

(** C7, amended. For every balance snapshot whose successful ticker replies
    are well formed, [get_total_asset] equals the cash (USD) balance's
    free + locked quantity at par plus, for every held asset other than USD
    and USDT with positive free + locked quantity whose price lookup
    succeeds, that quantity times its price, added in wallet order; USDT is
    never valued, and an asset whose price lookup fails contributes nothing
    while the valuation continues. *)
Theorem get_total_asset_sum
    (get_ticker : string -> option Ticker) (balance_data : BalanceData) :
  well_quoted get_ticker (get_default (SpotWallet balance_data) []) ->
  get_total_asset get_ticker (Some balance_data)
  = Ok (spec_total_capital cash_or_tether get_ticker
          (get_default (SpotWallet balance_data) [])).
Proof.
  intro W. unfold get_total_asset, spec_total_capital. cbn.
  now apply valuation_loop_sum.
Qed.

Lemma get_total_asset_sum_witness :
  get_total_asset (Samples.lookup 100) (Samples.snapshot 1000 1)
  = Ok (Fin 1000 + Fin 0 + (Fin 1 + Fin 0) * Fin 100).
Proof.
  refine (get_total_asset_sum (Samples.lookup 100)
            (mkBalance (Some (Samples.wallet 1000 1))) _).
  intros coin info ticker Hin Hcoin _ [= <-].
  destruct Hin as [[= <- <-] | [[= <- <-] | []]];
    [discriminate | eexists; reflexivity].
Defined.

(** ** Ranking *)

Lemma threshold_key_asym (a b : Decision) :
  numeric a -> numeric b ->
  (threshold_key a <? threshold_key b) = true ->
  (threshold_key b <? threshold_key a) = false.
Proof. intros _ _. apply ltb_asym. Qed.

Lemma threshold_key_negtrans (a b c : Decision) :
  numeric a -> numeric b -> numeric c ->
  (threshold_key b <? threshold_key a) = false ->
  (threshold_key c <? threshold_key b) = false ->
  (threshold_key c <? threshold_key a) = false.
Proof.
  unfold numeric, threshold_key. intros Ha Hb Hc.
  apply ltb_negtrans; now rewrite isna_neg.
Qed.

Lemma tuple_ltb_asym (a1 a2 b1 b2 : bool) (a3 b3 : float) :
  tuple_ltb (a1, a2, a3) (b1, b2, b3) = true ->
  tuple_ltb (b1, b2, b3) (a1, a2, a3) = false.
Proof.
  unfold tuple_ltb, bool_ltb.
  destruct a1, a2, b1, b2; cbn; try discriminate; try reflexivity;
    intro H; float_cases.
Qed.

Lemma tuple_ltb_negtrans (a1 a2 b1 b2 c1 c2 : bool) (a3 b3 c3 : float) :
  isna a3 = false -> isna b3 = false -> isna c3 = false ->
  tuple_ltb (b1, b2, b3) (a1, a2, a3) = false ->
  tuple_ltb (c1, c2, c3) (b1, b2, b3) = false ->
  tuple_ltb (c1, c2, c3) (a1, a2, a3) = false.
Proof.
  unfold tuple_ltb, bool_ltb.
  destruct a1, a2, b1, b2, c1, c2; cbn; try discriminate; try reflexivity;
    intros Ha Hb Hc H1 H2; float_cases.
Qed.

Lemma execution_key_asym (a b : Decision) :
  numeric a -> numeric b ->
  tuple_ltb (execution_key a) (execution_key b) = true ->
  tuple_ltb (execution_key b) (execution_key a) = false.
Proof. intros _ _. apply tuple_ltb_asym. Qed.

Lemma execution_key_negtrans (a b c : Decision) :
  numeric a -> numeric b -> numeric c ->
  tuple_ltb (execution_key b) (execution_key a) = false ->
  tuple_ltb (execution_key c) (execution_key b) = false ->
  tuple_ltb (execution_key c) (execution_key a) = false.
Proof.
  unfold numeric, execution_key. intros Ha Hb Hc.
  apply tuple_ltb_negtrans; now rewrite isna_neg, isna_abs.
Qed.

(** What the execution key order says about two Decisions [a] before [b]. *)
Lemma execution_in_order (a b : Decision) :
  numeric a -> numeric b ->
  in_order tuple_ltb execution_key a b ->
  (action b = SELL -> action a = SELL)
  /\ (action a = NULL -> action b = NULL)
  /\ (action a = action b ->
      (abs (coefficient b) <=? abs (coefficient a)) = true).
Proof.
  unfold numeric, in_order, execution_key, tuple_ltb, bool_ltb.
  intros Ha Hb H.
  destruct (action a), (action b); cbn in H; try discriminate;
    (split; [|split]); try discriminate; try reflexivity; intros _;
    clear -Ha Hb H; destruct (coefficient a), (coefficient b);
    float_cases.
Qed.

(** C4. For every list of Decisions (with numeric coefficients, as
    [strategy] produces them) the execution-order sort returns a
    permutation of the list in which, for any two positions taken from left
    to right, a SELL is never preceded by a BUY or a NULL, a NULL is followed
    by NULLs only, and two Decisions of the same action appear in descending
    order of |coefficient|. *)
Theorem execution_order_ranked (decision_list : list Decision) :
  Forall numeric decision_list ->
  let ordered := sort_for_execution decision_list in
  Permutation decision_list ordered
  /\ forall i j a b, (i < j)%nat ->
       nth_error ordered i = Some a -> nth_error ordered j = Some b ->
       ~ (action a = BUY /\ action b = SELL)
       /\ (action b = SELL -> action a = SELL)
       /\ (action a = NULL -> action b = NULL)
       /\ (action a = action b ->
           (abs (coefficient b) <=? abs (coefficient a)) = true).
Proof.
  intros G. cbv zeta. unfold sort_for_execution.
  split; [apply sort_by_perm|].
  intros i j a b Hij Ha Hb.
  pose proof (sort_by_good _ _ tuple_ltb execution_key numeric _ G) as G'.
  rewrite Forall_forall in G'.
  assert (Na : numeric a) by (apply G'; eapply nth_error_In; eauto).
  assert (Nb : numeric b) by (apply G'; eapply nth_error_In; eauto).
  pose proof (sort_by_sorted _ _ tuple_ltb execution_key numeric
                execution_key_asym execution_key_negtrans _ G) as S.
  pose proof (StronglySorted_nth_error _ _ _ S i j a b Hij Ha Hb) as R.
  destruct (execution_in_order a b Na Nb R) as (H1 & H2 & H3).
  split; [|auto].
  intros [Hbuy Hsell]. specialize (H1 Hsell). congruence.
Qed.

Lemma execution_order_ranked_witness :
  Forall numeric Samples.mixed_decisions
  /\ map (fun d => (target d, action d))
       (firstn 5 (sort_for_execution Samples.mixed_decisions))
     = [("SOL", SELL); ("ETH", BUY); ("BNB", BUY); ("BTC", BUY);
        ("XRP", NULL)]%string
  /\ Permutation Samples.mixed_decisions
       (sort_for_execution Samples.mixed_decisions)
  /\ forall i j a b, (i < j)%nat ->
       nth_error (sort_for_execution Samples.mixed_decisions) i = Some a ->
       nth_error (sort_for_execution Samples.mixed_decisions) j = Some b ->
       ~ (action a = BUY /\ action b = SELL)
       /\ (action b = SELL -> action a = SELL)
       /\ (action a = NULL -> action b = NULL)
       /\ (action a = action b ->
           (abs (coefficient b) <=? abs (coefficient a)) = true).
Proof.
  assert (G : Forall numeric Samples.mixed_decisions)
    by (repeat constructor).
  split; [exact G|]. split; [reflexivity|].
  exact (execution_order_ranked Samples.mixed_decisions G).
Defined.

(** ** The threshold update *)

Lemma count_if_none {A : Type} (f : A -> bool) (l : list A) :
  Forall (fun x => f x = false) l -> count_if f l = 0%nat.
Proof.
  unfold count_if. induction 1 as [|x l Hx _ IH]; cbn; [reflexivity|].
  now rewrite Hx.
Qed.

(** The list sorted for the threshold is non-increasing in coefficient. *)
Lemma sort_for_threshold_sorted (decision_list : list Decision) :
  Forall numeric decision_list ->
  StronglySorted (fun a b => (coefficient a <? coefficient b) = false)
    (sort_for_threshold decision_list).
Proof.
  intro G. unfold sort_for_threshold.
  pose proof (sort_by_sorted _ _ ltb threshold_key numeric
                threshold_key_asym threshold_key_negtrans _ G) as S.
  eapply StronglySorted_ind with (P := StronglySorted _); [| |exact S].
  - constructor.
  - intros a l _ IH Ha. constructor; [exact IH|].
    rewrite Forall_forall in *. intros b Hb. specialize (Ha b Hb).
    unfold in_order, threshold_key in Ha. now rewrite ltb_neg in Ha.
Qed.

Lemma evaluate_coins_capped (coins : list string) (f : CycleFeed)
    (sellpoint safety safety_coefficient : float) :
  Forall (fun d => numeric d /\ capped d)
    (evaluate_coins coins f sellpoint safety safety_coefficient).
Proof.
  unfold evaluate_coins. apply Forall_map, Forall_forall. intros c _.
  apply (strategy_coefficient_capped (cycle_feed f c) c (cycle_balance f)
           sellpoint safety safety_coefficient).
Qed.

(** On Decisions with numeric coefficients, index 2 of the list sorted for
    the threshold holds the third-highest coefficient, and the update is the
    maximum of 0.5 and 0.95 times it. *)
Lemma third_highest_after_sort (decision_list : list Decision) :
  Forall numeric decision_list ->
  (3 <= length decision_list)%nat ->
  exists v,
    third_highest v (map coefficient decision_list)
    /\ next_sellpoint decision_list = Ok (py_max (Fin 0.5) (v * Fin 0.95))
    /\ v * Fin 0.95 = Fin 0.95 * v
    /\ (Fin 0.5 <=? py_max (Fin 0.5) (v * Fin 0.95)) = true
    /\ (v * Fin 0.95 <=? py_max (Fin 0.5) (v * Fin 0.95)) = true
    /\ (py_max (Fin 0.5) (v * Fin 0.95) = Fin 0.5
        \/ py_max (Fin 0.5) (v * Fin 0.95) = v * Fin 0.95).
Proof.
  intros G L. unfold next_sellpoint.
  pose proof (sort_by_perm _ _ ltb threshold_key decision_list) as P.
  pose proof (sort_for_threshold_sorted _ G) as S.
  pose proof (sort_by_good _ _ ltb threshold_key numeric _ G) as G'.
  fold sort_for_threshold in P, G'.
  apply Permutation_length in P as Len.
  destruct (sort_for_threshold decision_list) as [|s0 [|s1 [|s2 rest]]];
    cbn in Len; try lia.
  cbn [nth_error]. exists (coefficient s2).
  inversion G' as [|? ? N0 G1]; subst.
  inversion G1 as [|? ? N1 G2]; subst.
  inversion G2 as [|? ? N2 G3]; subst.
  inversion S as [|? ? S1 F0]; subst.
  inversion S1 as [|? ? S2 F1]; subst.
  inversion S2 as [|? ? S3 F2]; subst.
  inversion F0 as [|? ? _ F0']; subst. inversion F0' as [|? ? H02 _]; subst.
  inversion F1 as [|? ? H12 _]; subst.
  split; [|split; [reflexivity|]].
  - unfold third_highest.
    rewrite (count_if_perm _ (fun c => coefficient s2 <? c) _ _
               (Permutation_map coefficient P)).
    rewrite (count_if_perm _ (fun c => coefficient s2 <=? c) _ _
               (Permutation_map coefficient P)).
    split; [|split].
    + eapply Permutation_in; [apply Permutation_sym, (Permutation_map coefficient P)|].
      cbn. auto.
    + unfold count_if. cbn [map filter].
      rewrite ltb_irrefl.
      assert (Z : count_if (fun c => coefficient s2 <? c) (map coefficient rest) = 0%nat).
      { apply count_if_none. rewrite Forall_map. exact F2. }
      unfold count_if in Z.
      destruct (_ <? coefficient s0), (_ <? coefficient s1); cbn;
        rewrite Z; lia.
    + unfold count_if. cbn [map filter].
      rewrite (not_ltb_leb _ _ N0 N2 H02), (not_ltb_leb _ _ N1 N2 H12),
        (leb_refl _ N2).
      cbn. lia.
  - split; [apply mul_comm|].
    split; [now apply py_max_lower|].
    split; [|apply py_max_cases].
    apply py_max_upper; [reflexivity|now apply isna_scale].
Qed.

(** C3. For every cycle with at least three Decisions (one per coin of the
    universe), the next threshold is max(0.5, 0.95 * v), where v is the
    third-highest coefficient among the cycle's Decisions. *)
Theorem next_sellpoint_third_highest
    (coins : list string) (f : CycleFeed)
    (sellpoint safety safety_coefficient : float) :
  (3 <= length coins)%nat ->
  let decision_list :=
    evaluate_coins coins f sellpoint safety safety_coefficient in
  exists v,
    third_highest v (map coefficient decision_list)
    /\ next_sellpoint decision_list = Ok (py_max (Fin 0.5) (v * Fin 0.95))
    /\ v * Fin 0.95 = Fin 0.95 * v
    /\ (Fin 0.5 <=? py_max (Fin 0.5) (v * Fin 0.95)) = true
    /\ (v * Fin 0.95 <=? py_max (Fin 0.5) (v * Fin 0.95)) = true
    /\ (py_max (Fin 0.5) (v * Fin 0.95) = Fin 0.5
        \/ py_max (Fin 0.5) (v * Fin 0.95) = v * Fin 0.95).
Proof.
  intros L. cbv zeta. apply third_highest_after_sort.
  - eapply Forall_impl; [|apply evaluate_coins_capped]. now intros d [H _].
  - now rewrite evaluate_coins_length.
Qed.

Lemma next_sellpoint_third_highest_witness :
  exists v,
    third_highest v (map coefficient Samples.mixed_decisions)
    /\ next_sellpoint Samples.mixed_decisions
       = Ok (py_max (Fin 0.5) (v * Fin 0.95))
    /\ (v =? Fin 1) = true.
Proof.
  destruct (next_sellpoint_third_highest coin_list Samples.mixed_cycle
              (Fin 0.5) (Fin 1000) (Fin 0.4))
    as (v & H1 & H2 & _).
  - cbn. lia.
  - exists v. split; [exact H1|]. split; [exact H2|].
    destruct H1 as (Hin & Hgt & Hge).
    vm_compute in Hin.
    repeat (destruct Hin as [<-|Hin];
            [try reflexivity; exfalso; vm_compute in Hgt, Hge; lia|]).
    contradiction.
Defined.

(** ** The threshold across cycles *)

Lemma next_sellpoint_in_band (decision_list : list Decision) :
  Forall capped decision_list ->
  (3 <= length decision_list)%nat ->
  exists sellpoint,
    next_sellpoint decision_list = Ok sellpoint /\ in_band sellpoint.
Proof.
  intros C L. unfold next_sellpoint.
  pose proof (sort_by_perm _ _ ltb threshold_key decision_list) as P.
  fold sort_for_threshold in P.
  destruct (nth_error (sort_for_threshold decision_list) 2) as [d|] eqn:E.
  - eexists. split; [reflexivity|].
    apply update_in_range.
    rewrite Forall_forall in C. apply C.
    eapply Permutation_in; [apply Permutation_sym, P|].
    eapply nth_error_In; eauto.
  - apply nth_error_None in E. apply Permutation_length in P. lia.
Qed.

Lemma cycle_runs (f : CycleFeed) (sellpoint safety safety_coefficient : float) :
  exists log,
    cycle f sellpoint safety safety_coefficient = Ok log
    /\ used_threshold log = sellpoint
    /\ decisions log
       = evaluate_coins coin_list f sellpoint safety safety_coefficient
    /\ Forall capped (decisions log)
    /\ in_band (new_sellpoint log).
Proof.
  unfold cycle.
  pose proof (evaluate_coins_capped coin_list f sellpoint safety
                safety_coefficient) as C.
  assert (C' : Forall capped
                 (evaluate_coins coin_list f sellpoint safety safety_coefficient)).
  { eapply Forall_impl; [|exact C]. now intros d [_ H]. }
  destruct (next_sellpoint_in_band _ C') as (sp & E & B).
  { rewrite evaluate_coins_length. cbn. lia. }
  rewrite E. cbn. eexists. split; [reflexivity|]. cbn. auto.
Qed.

Lemma run_from_runs (feeds : list CycleFeed) :
  forall sellpoint safety safety_coefficient,
  exists logs,
    run_from sellpoint safety safety_coefficient feeds = Ok logs
    /\ length logs = length feeds
    /\ (forall log f,
          nth_error logs 0 = Some log -> nth_error feeds 0 = Some f ->
          used_threshold log = sellpoint
          /\ decisions log
             = evaluate_coins coin_list f sellpoint safety safety_coefficient)
    /\ Forall (fun log => Forall capped (decisions log)
                          /\ in_band (new_sellpoint log)) logs
    /\ (forall k a b,
          nth_error logs k = Some a -> nth_error logs (S k) = Some b ->
          used_threshold b = new_sellpoint a).
Proof.
  induction feeds as [|f rest IH]; intros sellpoint safety safety_coefficient.
  - exists []. cbn.
    split; [reflexivity|]. split; [reflexivity|].
    split; [intros log f H; discriminate|].
    split; [constructor|].
    intros k a b H. destruct k; discriminate.
  - cbn [run_from].
    destruct (cycle_runs f sellpoint safety safety_coefficient)
      as (log & E & U & D & C & B).
    destruct (IH (new_sellpoint log) safety safety_coefficient)
      as (logs & E' & L & H0 & F & Chain).
    rewrite E. cbn. rewrite E'. cbn.
    exists (log :: logs). split; [reflexivity|].
    split; [cbn; congruence|].
    split; [|split].
    + intros log' f' [= <-] [= <-]. auto.
    + constructor; auto.
    + intros [|k] a b Ha Hb; cbn in Ha, Hb.
      * injection Ha as <-.
        destruct rest as [|f' rest'].
        -- destruct logs; [discriminate|cbn in L; discriminate].
        -- apply (H0 b f'); auto.
      * eapply Chain; eauto.
Qed.

(** C10. [run] never stops on its own: for every sequence of cycles it
    produces one log per cycle.  The first cycle evaluates every coin with
    threshold 0, which is below the floor 0.5; every stored coefficient is at
    most 5; after every update the new sellpoint lies in [0.5, 4.75]; and
    each later cycle uses the sellpoint the cycle before it computed. *)
Theorem sellpoint_invariant (feeds : list CycleFeed) :
  exists logs,
    run feeds = Ok logs
    /\ length logs = length feeds
    /\ (forall log f,
          nth_error logs 0 = Some log -> nth_error feeds 0 = Some f ->
          used_threshold log = zero
          /\ decisions log = evaluate_coins coin_list f zero (Fin 1000) (Fin 0.4))
    /\ (zero <? Fin 0.5) = true
    /\ Forall (fun log => Forall capped (decisions log)
                          /\ in_band (new_sellpoint log)) logs
    /\ (forall k a b,
          nth_error logs k = Some a -> nth_error logs (S k) = Some b ->
          used_threshold b = new_sellpoint a /\ in_band (used_threshold b)).
Proof.
  unfold run.
  destruct (run_from_runs feeds zero (Fin 1000) (Fin 0.4))
    as (logs & E & L & H0 & F & Chain).
  exists logs.
  split; [exact E|]. split; [exact L|]. split; [exact H0|].
  split; [reflexivity|]. split; [exact F|].
  intros k a b Ha Hb. rewrite (Chain k a b Ha Hb).
  split; [reflexivity|].
  rewrite Forall_forall in F. apply F. eapply nth_error_In; eauto.
Qed.

(** * Further properties of the decision pipeline *)

(** ** More float facts *)

(** Case analysis on floats that also opens the sign tests of the
    multiplication and division of special values. *)
Ltac float_split :=
  unfold py_max, py_min, gtb, leb, sub, zero in *;
  repeat match goal with x : float |- _ => destruct x end;
  repeat (progress
            (cbn [ltb eqb add mul neg abs np_div isna inf_times orb andb negb] in *;
             unfold inf_times, Qsign in *;
             q_compare));
  try discriminate; try reflexivity; try congruence.

Lemma Qpos_quotient (q d a : Q) : (0 < q -> 0 < a -> 0 < q * d / a -> 0 < d)%Q.
Proof.
  intros Hq Ha H.
  destruct (Qlt_le_dec 0 d) as [Hd|Hd]; [exact Hd|exfalso].
  assert (Hi : (0 < / a)%Q) by now apply Qinv_lt_0_compat.
  assert (H1 : (q * d <= 0)%Q) by nra.
  unfold Qdiv in H. nra.
Qed.

(** The clamp [max(0.9, min(1.11, x))] is a finite value of the band, whatever
    [x] is. *)
Lemma objective_ratio_band (x : float) :
  exists q,
    py_max (Fin 0.9) (py_min (Fin 1.11) x) = Fin q /\ (0.9 <= q <= 1.11)%Q.
Proof.
  unfold py_max, py_min, gtb.
  destruct x as [| | |a]; cbn [ltb].
  - exists 1.11%Q. split; [reflexivity|lra].
  - exists 1.11%Q. split; [reflexivity|lra].
  - exists 0.9%Q. split; [reflexivity|lra].
  - pose proof (FloatFacts.Qlt_case a 1.11) as C1.
    destruct (a ?= 1.11)%Q; cbv beta iota in C1; cbn [ltb].
    + exists 1.11%Q. split; [reflexivity|lra].
    + pose proof (FloatFacts.Qlt_case 0.9 a) as C2.
      destruct (0.9 ?= a)%Q; cbv beta iota in C2;
        [exists 0.9%Q|exists a|exists 0.9%Q]; split; try reflexivity; lra.
    + exists 1.11%Q. split; [reflexivity|lra].
Qed.

Lemma above_threshold_positive (c t : float) :
  (zero <=? t) = true -> (c >? t + Fin 0.1) = true -> (zero <? c) = true.
Proof. float_cases. Qed.

Lemma positive_quotient (q : Q) (s l a : float) :
  (0 < q)%Q -> (zero <? a) = true ->
  (zero <? Fin q * (s - l) / a) = true -> (l <? s) = true.
Proof.
  intros Hq Ha H. float_split; try lra; try (exfalso; lra).
  all: match goal with
       | C0 : (0 < ?x * ?d / ?y)%Q |- _ =>
           assert (0 < d)%Q by (apply (Qpos_quotient x d y); assumption)
       end; exfalso; lra.
Qed.

Lemma positive_is_defined (a : float) :
  (zero <? a) = true -> isna a || (a =? zero) = false.
Proof. float_cases. Qed.

(** ** The coefficient *)

Lemma calculate_coefficient_value (df : DataFrame) (latest : Row) :
  iloc_last df = Ok latest ->
  isna (atr latest) || (atr latest =? zero) = false ->
  exists q,
    (0.9 <= q <= 1.11)%Q
    /\ calculate_coefficient df
       = Ok (Fin q * (short_MA latest - long_MA latest) / atr latest).
Proof.
  intros E H. unfold calculate_coefficient. rewrite E. cbn [bind]. rewrite H.
  destruct (objective_ratio_band (Fin 0.02 / std_volavolatility_ratio latest))
    as (q & -> & B).
  exists q. split; [exact B|reflexivity].
Qed.

(** X1. Whenever the latest ATR is a non-zero number, the coefficient is
    factor * (short_MA - long_MA) / atr with a finite factor in
    [0.9, 1.11], whatever the volatility baseline is (NaN, zero and infinite
    baselines included). *)
Theorem coefficient_factor_in_band (df : DataFrame) (latest : Row) :
  iloc_last df = Ok latest ->
  isna (atr latest) || (atr latest =? zero) = false ->
  exists q,
    (0.9 <= q <= 1.11)%Q
    /\ calculate_coefficient df
       = Ok (Fin q * (short_MA latest - long_MA latest) / atr latest).
Proof. apply calculate_coefficient_value. Qed.

Lemma coefficient_factor_in_band_witness :
  exists q,
    (0.9 <= q <= 1.11)%Q
    /\ calculate_coefficient
         [mkRow (Fin 100) (Fin 110) (Fin 100) (Fin 2) NaN (Fin 5)]
       = Ok (Fin q * (Fin 110 - Fin 100) / Fin 5).
Proof.
  exact (coefficient_factor_in_band
           [mkRow (Fin 100) (Fin 110) (Fin 100) (Fin 2) NaN (Fin 5)]
           (mkRow (Fin 100) (Fin 110) (Fin 100) (Fin 2) NaN (Fin 5))
           eq_refl eq_refl).
Defined.

(** What a BUY Decision says about the evaluation it comes from. *)
Lemma buy_inv (feed : Feed) (asset : string) (snapshot : option BalanceData)
    (threshold safety safety_coefficient : float) :
  action (strategy feed asset snapshot threshold safety safety_coefficient) = BUY ->
  exists d p mp c w latest,
    strategy_body feed asset snapshot threshold safety safety_coefficient = Ok d
    /\ strategy feed asset snapshot threshold safety safety_coefficient = d
    /\ evaluated feed asset snapshot p mp c w latest
    /\ (c <? threshold) = false
    /\ (c >? threshold + Fin 0.1) = true
    /\ (p =? zero) = false
    /\ amount d
       = py_min (wallet_free w "USD" * safety_coefficient / p)
           (abs (mp * c) / p)
    /\ (amount d =? zero) = false
    /\ spending d = Some (amount d * p).
Proof.
  unfold strategy.
  destruct (strategy_body _ _ _ _ _ _) as [d|e] eqn:E; [|discriminate].
  intro A. pose proof E as E0. apply strategy_body_inv in E.
  destruct E as (p & mp & c & w & latest & Ev & Dec & _ & _ & _ & _ & _ & _ & Hs & _).
  exists d, p, mp, c, w, latest. unfold decided in Dec.
  destruct (c <? threshold) eqn:S.
  { destruct Dec as [_ Hact]. destruct (_ =? zero); congruence. }
  destruct (c >? threshold + Fin 0.1) eqn:B.
  2: { destruct Dec as [_ Hact]. congruence. }
  destruct Dec as (q & Hq & Ham & Hact).
  unfold py_div in Hq. destruct (p =? zero) eqn:P; [discriminate|].
  injection Hq as <-.
  destruct (amount d =? zero) eqn:Z; [congruence|].
  repeat split; auto.
Qed.

(** X2. With a threshold >= 0 and a positive latest ATR, a BUY Decision is
    only returned in an uptrend: the short moving average is above the long
    one. *)
Theorem buy_needs_uptrend
    (feed : Feed) (asset : string) (snapshot : option BalanceData)
    (threshold safety safety_coefficient : float)
    (df : DataFrame) (latest : Row) :
  feed_data feed = Some df ->
  iloc_last df = Ok latest ->
  (zero <? atr latest) = true ->
  (zero <=? threshold) = true ->
  action (strategy feed asset snapshot threshold safety safety_coefficient) = BUY ->
  (long_MA latest <? short_MA latest) = true.
Proof.
  intros Hd Hl Ha Ht A.
  destruct (buy_inv _ _ _ _ _ _ A)
    as (d & p & mp & c & w & latest' & _ & _ & Ev & _ & B & _).
  destruct Ev as (t & df' & tc & _ & _ & Hd' & _ & _ & Hc & _ & _).
  assert (df' = df) by congruence. subst df'.
  destruct (calculate_coefficient_value df latest Hl (positive_is_defined _ Ha))
    as (q & Bq & Hc').
  rewrite Hc' in Hc. injection Hc as <-.
  apply (positive_quotient q _ _ (atr latest)); [lra|exact Ha|].
  now apply (above_threshold_positive _ threshold).
Qed.

Lemma buy_needs_uptrend_witness :
  (long_MA (Samples.sample (Fin 150) (Fin 4) (Fin 5))
   <? short_MA (Samples.sample (Fin 150) (Fin 4) (Fin 5))) = true.
Proof.
  exact (buy_needs_uptrend
           (Samples.feed_of (Samples.sample (Fin 150) (Fin 4) (Fin 5)))
           "BTC"%string (Samples.snapshot 1000 1) (Fin 0.5) (Fin 1000) (Fin 0.4)
           [Samples.sample (Fin 150) (Fin 4) (Fin 5)]
           (Samples.sample (Fin 150) (Fin 4) (Fin 5))
           eq_refl eq_refl eq_refl eq_refl eq_refl).
Defined.

(** ** Which action, and why *)

Lemma sell_inv (feed : Feed) (asset : string) (snapshot : option BalanceData)
    (threshold safety safety_coefficient : float) :
  action (strategy feed asset snapshot threshold safety safety_coefficient) = SELL ->
  exists d p mp c w latest,
    strategy feed asset snapshot threshold safety safety_coefficient = d
    /\ evaluated feed asset snapshot p mp c w latest
    /\ (c <? threshold) = true
    /\ amount d = wallet_free w asset + wallet_lock w asset
    /\ (amount d =? zero) = false
    /\ balance d = Some (amount d).
Proof.
  unfold strategy.
  destruct (strategy_body _ _ _ _ _ _) as [d|e] eqn:E; [|discriminate].
  intro A. apply strategy_body_inv in E.
  destruct E as (p & mp & c & w & latest & Ev & Dec & _ & _ & _ & Hb & _).
  exists d, p, mp, c, w, latest. unfold decided in Dec.
  destruct (c <? threshold) eqn:S.
  - destruct Dec as [Ham Hact]. rewrite Ham.
    destruct (_ =? zero) eqn:Z; [congruence|]. repeat split; auto.
  - destruct (c >? threshold + Fin 0.1).
    + destruct Dec as (q & _ & _ & Hact). destruct (_ =? zero); congruence.
    + destruct Dec as [_ Hact]. congruence.
Qed.

(** X3. The action of a Decision is decided by the raw coefficient alone:
    it is SELL exactly when the evaluation succeeds, the raw coefficient is
    below the threshold and the held balance is not 0 (the amount then being
    the whole held balance); it is BUY exactly when the evaluation succeeds,
    the raw coefficient exceeds threshold + 0.1, the price is not 0 and the
    sized amount is not 0. *)
Theorem action_characterisation
    (feed : Feed) (asset : string) (snapshot : option BalanceData)
    (threshold safety safety_coefficient : float) :
  let d := strategy feed asset snapshot threshold safety safety_coefficient in
  (action d = SELL <->
   exists p mp c w latest,
     evaluated feed asset snapshot p mp c w latest
     /\ (c <? threshold) = true
     /\ (wallet_free w asset + wallet_lock w asset =? zero) = false)
  /\ (action d = SELL -> balance d = Some (amount d))
  /\ (action d = BUY <->
      exists p mp c w latest,
        evaluated feed asset snapshot p mp c w latest
        /\ (c >? threshold + Fin 0.1) = true
        /\ (p =? zero) = false
        /\ (py_min (wallet_free w "USD" * safety_coefficient / p)
              (abs (mp * c) / p) =? zero) = false).
Proof.
  cbv zeta. split; [split|split; [|split]].
  - intro A. destruct (sell_inv _ _ _ _ _ _ A)
      as (d & p & mp & c & w & latest & _ & Ev & S & Ham & Z & _).
    exists p, mp, c, w, latest. rewrite <- Ham. auto.
  - intros (p & mp & c & w & latest & Ev & S & Z).
    unfold strategy. rewrite (strategy_body_eval _ _ _ _ _ _ _ _ _ _ _ Ev).
    destruct (c >? threshold + Fin 0.1) eqn:B.
    { apply buy_excludes_sell in B. congruence. }
    cbn. rewrite S. cbn. now rewrite Z.
  - intro A. destruct (sell_inv _ _ _ _ _ _ A)
      as (d & p & mp & c & w & latest & -> & _ & _ & _ & _ & Hb).
    exact Hb.
  - intro A. destruct (buy_inv _ _ _ _ _ _ A)
      as (d & p & mp & c & w & latest & _ & _ & Ev & _ & B & P & Ham & Z & _).
    exists p, mp, c, w, latest. rewrite <- Ham. auto.
  - intros (p & mp & c & w & latest & Ev & B & P & Z).
    unfold strategy. rewrite (strategy_body_eval _ _ _ _ _ _ _ _ _ _ _ Ev), B.
    unfold py_div. rewrite P. cbn.
    rewrite (buy_excludes_sell c threshold B). cbn. now rewrite Z.
Qed.

(** X4. A last price equal to 0 never yields a BUY: the cash sizing divides
    by the price, the division raises, and the Decision is the neutral one. *)
Theorem zero_price_never_buys
    (feed : Feed) (asset : string) (snapshot : option BalanceData)
    (threshold safety safety_coefficient : float)
    (ticker : Ticker) (p : float) :
  ticker_ok (feed_ticker feed) = Some ticker ->
  last_price ticker (pair_of asset) = Ok p ->
  (p =? zero) = true ->
  let d := strategy feed asset snapshot threshold safety safety_coefficient in
  action d <> BUY
  /\ forall mp c w latest,
       evaluated feed asset snapshot p mp c w latest ->
       (c >? threshold + Fin 0.1) = true ->
       strategy_body feed asset snapshot threshold safety safety_coefficient
       = Raise ZeroDivisionError
       /\ d = neutral_decision asset.
Proof.
  intros Ht Hp Z. cbv zeta. split.
  - intro A. destruct (buy_inv _ _ _ _ _ _ A)
      as (d & p' & mp & c & w & latest & _ & _ & Ev & _ & _ & P & _).
    destruct Ev as (t & df & tc & Ht' & Hp' & _).
    assert (p' = p) by congruence. congruence.
  - intros mp c w latest Ev B.
    assert (E : strategy_body feed asset snapshot threshold safety
                  safety_coefficient = Raise ZeroDivisionError).
    { rewrite (strategy_body_eval _ _ _ _ _ _ _ _ _ _ _ Ev), B.
      unfold py_div. now rewrite Z. }
    split; [exact E|]. unfold strategy. now rewrite E.
Qed.

Lemma zero_price_never_buys_witness :
  action
    (strategy
       (mkFeed (Some (Samples.quote 0))
          (Some [Samples.sample (Fin 150) (Fin 4) (Fin 5)]) (Samples.lookup 0))
       "BTC"%string (Samples.snapshot 1000 1) (Fin 0.5) (Fin 1000) (Fin 0.4))
  <> BUY.
Proof.
  exact (proj1
    (zero_price_never_buys
       (mkFeed (Some (Samples.quote 0))
          (Some [Samples.sample (Fin 150) (Fin 4) (Fin 5)]) (Samples.lookup 0))
       "BTC"%string (Samples.snapshot 1000 1) (Fin 0.5) (Fin 1000) (Fin 0.4)
       (Samples.quote 0) (Fin 0) eq_refl eq_refl eq_refl)).
Defined.

(** ** What a BUY commits *)

(** Python's [min] returns one of its arguments, and neither argument is
    below it. *)
Lemma py_min_bounds (x y : float) :
  (x <? py_min x y) = false /\ (y <? py_min x y) = false
  /\ (py_min x y = x \/ py_min x y = y).
Proof.
  unfold py_min. destruct (y <? x) eqn:E.
  - split; [|split; [apply ltb_irrefl|now right]].
    clear -E. float_cases.
  - split; [apply ltb_irrefl|split; [exact E|now left]].
Qed.

Lemma Qdiv_nonneg (k p : Q) : (0 <= k -> 0 < p -> 0 <= k / p)%Q.
Proof.
  intros Hk Hp. unfold Qdiv.
  assert (0 < / p)%Q by now apply Qinv_lt_0_compat.
  nra.
Qed.

(** For a positive price and a non-negative cash fraction neither sizing is
    negative, so the sized amount is not. *)
Lemma sized_not_negative (k b p : float) :
  (zero <? p) = true -> (zero <=? k) = true ->
  (py_min (k / p) (abs b / p) <? zero) = false.
Proof.
  intros Hp Hk. float_split; try lra; try (exfalso; lra).
  all: exfalso;
    repeat match goal with
      | H : (?a / ?b < 0)%Q |- _ =>
          assert (0 <= a / b)%Q
            by (apply Qdiv_nonneg; [try apply Qabs_nonneg; lra|lra]);
          revert H
      end; intros; lra.
Qed.

(** X5. The amount of a BUY Decision is the smaller of the cash sizing
    (free USD * safety_coefficient / price) and the position sizing
    (|max_position * coefficient| / price): it is one of the two, neither of
    them is below it, it is not 0, and the recorded spending is the product
    amount * price.  For a positive price and a non-negative cash fraction
    the amount is not negative.  (The spending is a rounded product: that it
    stays within free USD * safety_coefficient is not a property of the
    program.) *)
Theorem buy_amount_bounded
    (feed : Feed) (asset : string) (snapshot : option BalanceData)
    (threshold safety safety_coefficient : float) (w : Wallet) :
  spot_wallet_of snapshot = Ok w ->
  action (strategy feed asset snapshot threshold safety safety_coefficient) = BUY ->
  let d := strategy feed asset snapshot threshold safety safety_coefficient in
  exists p mp c latest,
    evaluated feed asset snapshot p mp c w latest
    /\ (wallet_free w "USD" * safety_coefficient / p <? amount d) = false
    /\ (abs (mp * c) / p <? amount d) = false
    /\ (amount d = wallet_free w "USD" * safety_coefficient / p
        \/ amount d = abs (mp * c) / p)
    /\ (amount d =? zero) = false
    /\ spending d = Some (amount d * p)
    /\ ((zero <? p) = true ->
        (zero <=? wallet_free w "USD" * safety_coefficient) = true ->
        (amount d <? zero) = false).
Proof.
  intros Hw A. cbv zeta.
  destruct (buy_inv _ _ _ _ _ _ A)
    as (d & p & mp & c & w' & latest & _ & -> & Ev & _ & _ & _ & Ham & Hz & Hs).
  assert (w' = w).
  { destruct Ev as (t & df & tc & _ & _ & _ & _ & _ & _ & Hw' & _). congruence. }
  subst w'. exists p, mp, c, latest.
  split; [exact Ev|].
  destruct (py_min_bounds (wallet_free w "USD" * safety_coefficient / p)
              (abs (mp * c) / p)) as (B1 & B2 & B3).
  rewrite <- Ham in B1, B2, B3.
  split; [exact B1|]. split; [exact B2|]. split; [exact B3|].
  split; [exact Hz|]. split; [exact Hs|].
  intros Hp Hk. rewrite Ham. now apply sized_not_negative.
Qed.

Lemma buy_amount_bounded_witness :
  exists p mp c latest,
    evaluated (Samples.feed_of (Samples.sample (Fin 150) (Fin 4) (Fin 5)))
      "BTC"%string (Samples.snapshot 1000 1) p mp c (Samples.wallet 1000 1) latest
    /\ (amount
          (strategy (Samples.feed_of (Samples.sample (Fin 150) (Fin 4) (Fin 5)))
             "BTC"%string (Samples.snapshot 1000 1) (Fin 0.5) (Fin 1000) (Fin 0.4))
        =? zero) = false
    /\ spending
         (strategy (Samples.feed_of (Samples.sample (Fin 150) (Fin 4) (Fin 5)))
            "BTC"%string (Samples.snapshot 1000 1) (Fin 0.5) (Fin 1000) (Fin 0.4))
       = Some
           (amount
              (strategy (Samples.feed_of (Samples.sample (Fin 150) (Fin 4) (Fin 5)))
                 "BTC"%string (Samples.snapshot 1000 1) (Fin 0.5) (Fin 1000)
                 (Fin 0.4))
            * p).
Proof.
  destruct (buy_amount_bounded
              (Samples.feed_of (Samples.sample (Fin 150) (Fin 4) (Fin 5)))
              "BTC"%string (Samples.snapshot 1000 1) (Fin 0.5) (Fin 1000)
              (Fin 0.4) (Samples.wallet 1000 1) eq_refl eq_refl)
    as (p & mp & c & latest & Ev & _ & _ & _ & Hz & Hs & _).
  exists p, mp, c, latest. split; [exact Ev|]. split; assumption.
Defined.

(** ** Valuation: failures *)

(** The valuation loop raises nothing but [KeyError]. *)
Lemma valuation_loop_raises (get_ticker : string -> option Ticker)
    (items : Wallet) :
  forall total_usd e,
    valuation_loop get_ticker items total_usd = Raise e -> e = KeyError.
Proof.
  induction items as [|[coin info] rest IH]; intros total_usd e;
    cbn [valuation_loop]; [discriminate|].
  destruct (negb (String.eqb coin "USD") && negb (String.eqb coin "USDT"));
    [|apply IH].
  destruct (get_default (Free info) zero + get_default (Lock info) zero >? zero);
    [|apply IH].
  destruct (ticker_ok (get_ticker (pair_of coin))) as [ticker|]; [|apply IH].
  unfold last_price, dict_index.
  destruct (dict_get (pair_of coin) (Data ticker)); cbn [bind]; [apply IH|].
  now intros [= <-].
Qed.

(** A valuation that returns has met well-formed replies only. *)
Lemma valuation_loop_ok (get_ticker : string -> option Ticker)
    (items : Wallet) :
  forall total_usd v,
    valuation_loop get_ticker items total_usd = Ok v ->
    well_quoted get_ticker items.
Proof.
  induction items as [|[coin info] rest IH]; intros total_usd v H.
  - intros c i t [].
  - cbn [valuation_loop] in H.
    intros c i t [[= <- <-]|Hin] Hc Hpos Ht.
    + unfold cash_or_tether in Hc.
      apply orb_false_iff in Hc. destruct Hc as [Hc1 Hc2].
      rewrite Hc1, Hc2 in H. cbn [negb andb] in H.
      unfold holding in Hpos. rewrite Hpos, Ht in H.
      destruct (last_price t (pair_of coin)) as [p|e]; [eauto|discriminate].
    + destruct (negb (String.eqb coin "USD") && negb (String.eqb coin "USDT"));
        [|now apply (IH _ _ H c i t)].
      destruct (get_default (Free info) zero + get_default (Lock info) zero
                >? zero);
        [|now apply (IH _ _ H c i t)].
      destruct (ticker_ok (get_ticker (pair_of coin))) as [ticker|];
        [|now apply (IH _ _ H c i t)].
      destruct (last_price ticker (pair_of coin)); cbn [bind] in H;
        [|discriminate].
      now apply (IH _ _ H c i t).
Qed.

(** X6. [get_total_asset] returns a total exactly when every successful
    ticker reply it uses quotes the pair asked for; otherwise it raises
    [KeyError] (it does not skip the asset), and a missing balance snapshot
    raises [AttributeError]. *)
Theorem get_total_asset_succeeds_iff
    (get_ticker : string -> option Ticker) (balance_data : BalanceData) :
  let w := get_default (SpotWallet balance_data) [] in
  (well_quoted get_ticker w <->
   exists v, get_total_asset get_ticker (Some balance_data) = Ok v)
  /\ (forall e,
        get_total_asset get_ticker (Some balance_data) = Raise e ->
        e = KeyError /\ ~ well_quoted get_ticker w)
  /\ get_total_asset get_ticker None = Raise AttributeError.
Proof.
  cbv zeta. split; [split|split].
  - intro W. eexists. unfold get_total_asset. cbn.
    now apply valuation_loop_sum.
  - intros [v H]. unfold get_total_asset in H. cbn in H.
    now apply valuation_loop_ok in H.
  - intros e H. unfold get_total_asset in H. cbn in H. split.
    + now apply valuation_loop_raises in H.
    + intro W. rewrite (valuation_loop_sum _ _ W) in H. discriminate.
  - reflexivity.
Qed.

(** X7. When every price lookup fails, the total capital is the USD balance
    alone: held coins count for nothing and nothing is raised. *)
Theorem get_total_asset_without_prices
    (get_ticker : string -> option Ticker) (balance_data : BalanceData) :
  (forall pair, ticker_ok (get_ticker pair) = None) ->
  let w := get_default (SpotWallet balance_data) [] in
  get_total_asset get_ticker (Some balance_data)
  = Ok (wallet_free w "USD" + wallet_lock w "USD").
Proof.
  intro H. cbv zeta. unfold get_total_asset. cbn.
  generalize (wallet_free (get_default (SpotWallet balance_data) []) "USD"
              + wallet_lock (get_default (SpotWallet balance_data) []) "USD").
  induction (get_default (SpotWallet balance_data) []) as [|[coin info] rest IH];
    intro total; [reflexivity|].
  cbn [valuation_loop]. rewrite H.
  destruct (negb (String.eqb coin "USD") && negb (String.eqb coin "USDT"));
    [|apply IH].
  destruct (get_default (Free info) zero + get_default (Lock info) zero >? zero);
    apply IH.
Qed.

Lemma get_total_asset_without_prices_witness :
  get_total_asset (fun _ => None) (Samples.snapshot 1000 1)
  = Ok (Fin 1000 + Fin 0).
Proof.
  exact (get_total_asset_without_prices (fun _ => None)
           (mkBalance (Some (Samples.wallet 1000 1))) (fun _ => eq_refl)).
Defined.

(** ** The sizer shrinks with volatility *)

Lemma Qdiv_antitone (k x y : Q) : (0 <= k -> 0 < x -> x <= y -> k / y <= k / x)%Q.
Proof.
  intros Hk Hx Hxy.
  assert (Hy : (0 < y)%Q) by lra.
  apply Qle_shift_div_l; [exact Hx|].
  assert (E : (k / y * x == k * (x / y))%Q) by (field; lra).
  rewrite E.
  assert (H1 : (x / y <= 1)%Q).
  { apply Qle_shift_div_r; [exact Hy|]. lra. }
  assert (H2 : (0 <= x / y)%Q).
  { apply Qle_shift_div_l; [exact Hy|]. lra. }
  nra.
Qed.

Lemma Qratio_monotone (a b p v : Q) :
  (0 < p -> 0 < v -> 0 < a -> a <= b -> 0 < a / p / v /\ a / p / v <= b / p / v)%Q.
Proof.
  intros Hp Hv Ha Hab.
  assert (Hip : (0 < / p)%Q) by now apply Qinv_lt_0_compat.
  assert (Hiv : (0 < / v)%Q) by now apply Qinv_lt_0_compat.
  unfold Qdiv. split.
  - apply Qmult_lt_0_compat; [apply Qmult_lt_0_compat|]; assumption.
  - apply Qmult_le_compat_r; [|lra].
    apply Qmult_le_compat_r; [exact Hab|lra].
Qed.

(** X8. For a positive price, a positive volatility baseline and a
    non-negative risk budget (total capital * risk coefficient), the maximum
    position does not grow when the latest stdV grows: a more volatile
    asset is allowed no larger a position. *)
Theorem max_position_antitone
    (pre1 pre2 : DataFrame) (p v k1 k2 a b : Q)
    (sma1 lma1 atr1 sma2 lma2 atr2 : float) :
  (0 < p)%Q -> (0 < v)%Q -> (0 <= k1 * k2)%Q -> (0 < a)%Q -> (a <= b)%Q ->
  exists m1 m2,
    calculate_max_position
      (pre1 ++ [mkRow (Fin p) sma1 lma1 (Fin a) (Fin v) atr1]) (Fin k1) (Fin k2)
    = Ok (Fin m1)
    /\ calculate_max_position
         (pre2 ++ [mkRow (Fin p) sma2 lma2 (Fin b) (Fin v) atr2]) (Fin k1) (Fin k2)
       = Ok (Fin m2)
    /\ (m2 <= m1)%Q /\ (0 <= m2)%Q.
Proof.
  intros Hp Hv Hk Ha Hab.
  assert (Hb : (0 < b)%Q) by lra.
  destruct (Qratio_monotone a b p v Hp Hv Ha Hab) as [Hx Hxy].
  destruct (Qratio_monotone b b p v Hp Hv Hb (Qle_refl b)) as [Hy _].
  exists (k1 * k2 / (a / p / v))%Q, (k1 * k2 / (b / p / v))%Q.
  unfold calculate_max_position. rewrite !iloc_last_app.
  cbn [bind close stdV std_volavolatility_ratio].
  assert (Ea : (Fin a =? zero) = false).
  { unfold zero. cbn. apply not_true_is_false. intro E.
    apply Qeq_bool_iff in E. lra. }
  assert (Eb : (Fin b =? zero) = false).
  { unfold zero. cbn. apply not_true_is_false. intro E.
    apply Qeq_bool_iff in E. lra. }
  rewrite Ea, Eb.
  assert (S : forall x : Q, (0 < x)%Q -> Qsign x = Gt).
  { intros x Hx0. unfold Qsign. now apply FloatFacts.Qcompare_Gt. }
  assert (Hap : (0 < a / p)%Q).
  { unfold Qdiv. apply Qmult_lt_0_compat; [exact Ha|now apply Qinv_lt_0_compat]. }
  assert (Hbp : (0 < b / p)%Q).
  { unfold Qdiv. apply Qmult_lt_0_compat; [exact Hb|now apply Qinv_lt_0_compat]. }
  cbn [np_div mul]. rewrite (S p Hp). cbn [np_div]. rewrite (S v Hv).
  cbn [np_div]. rewrite (S _ Hx), (S _ Hy).
  split; [reflexivity|]. split; [reflexivity|]. split.
  - now apply Qdiv_antitone.
  - apply Qle_shift_div_l; [exact Hy|]. lra.
Qed.

Lemma max_position_antitone_witness :
  exists m1 m2,
    calculate_max_position
      [mkRow (Fin 100) (Fin 100) (Fin 100) (Fin 2) (Fin 0.02) (Fin 5)]
      (Fin 1000) (Fin 0.05)
    = Ok (Fin m1)
    /\ calculate_max_position
         [mkRow (Fin 100) (Fin 100) (Fin 100) (Fin 4) (Fin 0.02) (Fin 5)]
         (Fin 1000) (Fin 0.05)
       = Ok (Fin m2)
    /\ (m2 <= m1)%Q /\ (0 <= m2)%Q.
Proof.
  refine (max_position_antitone [] [] 100 0.02 1000 0.05 2 4
            (Fin 100) (Fin 100) (Fin 5) (Fin 100) (Fin 100) (Fin 5)
            _ _ _ _ _); lra.
Defined.

(** ** When the threshold leaves its floor *)

Lemma count_if_monotone {A : Type} (f g : A -> bool) (l : list A) :
  (forall x, In x l -> f x = true -> g x = true) ->
  (count_if f l <= count_if g l)%nat.
Proof.
  unfold count_if. induction l as [|x l IH]; intro H; [apply le_n|].
  cbn [filter].
  assert (IH' : (length (filter f l) <= length (filter g l))%nat).
  { apply IH. intros y Hy. apply H. now right. }
  destruct (f x) eqn:F.
  - rewrite (H x (or_introl eq_refl) F). cbn. lia.
  - destruct (g x); cbn; lia.
Qed.

Lemma py_max_above (a b : float) : (a <? py_max a b) = (a <? b).
Proof.
  unfold py_max, gtb. destruct (a <? b) eqn:E; [exact E|apply ltb_irrefl].
Qed.

Lemma scaled_above (t v c : float) :
  (v <=? c) = true -> (t <? v * Fin 0.95) = true -> (t <? c * Fin 0.95) = true.
Proof. float_cases. Qed.

Lemma scaled_below (t v c : float) :
  isna v = false ->
  (t <? v * Fin 0.95) = false -> (t <? c * Fin 0.95) = true -> (v <? c) = true.
Proof. float_cases. Qed.

(** X9. The next threshold is above its floor 0.5 exactly when at least
    three of the cycle's stored coefficients satisfy coefficient * 0.95 >
    0.5; otherwise it is 0.5 itself. *)
Theorem threshold_leaves_floor
    (coins : list string) (f : CycleFeed)
    (sellpoint safety safety_coefficient : float) :
  (3 <= length coins)%nat ->
  let decision_list :=
    evaluate_coins coins f sellpoint safety safety_coefficient in
  exists next,
    next_sellpoint decision_list = Ok next
    /\ ((Fin 0.5 <? next) = true <->
        (3 <= count_if (fun c => Fin 0.5 <? c * Fin 0.95)
                (map coefficient decision_list))%nat)
    /\ ((Fin 0.5 <? next) = false -> next = Fin 0.5).
Proof.
  intro L. cbv zeta.
  set (l := evaluate_coins coins f sellpoint safety safety_coefficient).
  assert (N : Forall numeric l).
  { eapply Forall_impl; [|apply evaluate_coins_capped]. now intros d [H _]. }
  destruct (third_highest_after_sort l N) as (v & (Hin & Hgt & Hge) & E & _).
  { unfold l. now rewrite evaluate_coins_length. }
  exists (py_max (Fin 0.5) (v * Fin 0.95)). split; [exact E|].
  rewrite py_max_above.
  assert (Nv : isna v = false).
  { apply in_map_iff in Hin. destruct Hin as (d & <- & Hd).
    rewrite Forall_forall in N. now apply N. }
  split; [split|].
  - intro H.
    assert (count_if (fun c => v <=? c) (map coefficient l)
            <= count_if (fun c => Fin 0.5 <? c * Fin 0.95) (map coefficient l))%nat.
    { apply count_if_monotone. intros c _ Hc. now apply (scaled_above _ v). }
    lia.
  - intro H. destruct (Fin 0.5 <? v * Fin 0.95) eqn:B; [reflexivity|exfalso].
    assert (count_if (fun c => Fin 0.5 <? c * Fin 0.95) (map coefficient l)
            <= count_if (fun c => v <? c) (map coefficient l))%nat.
    { apply count_if_monotone. intros c _ Hc. now apply (scaled_below (Fin 0.5)). }
    lia.
  - intro H. unfold py_max, gtb. now rewrite H.
Qed.

Lemma threshold_leaves_floor_witness :
  exists next,
    next_sellpoint Samples.mixed_decisions = Ok next
    /\ (Fin 0.5 <? next) = true.
Proof.
  destruct (threshold_leaves_floor coin_list Samples.mixed_cycle
              (Fin 0.5) (Fin 1000) (Fin 0.4))
    as (next & H & Hiff & _).
  - cbn. lia.
  - exists next. split; [exact H|]. apply Hiff. vm_compute. lia.
Defined.

(** * The order loop *)

Section OrderLoop.

Variable py_round : float -> option Z -> result float.
Variable str : float -> string.
Variable balance : option BalanceData.
Variable exchange_info : option ExchangeInfo.
Variable safety : float.

Local Notation "'block'" :=
  (execute_decision py_round str balance exchange_info safety).
Local Notation "'trace_of'" :=
  (execute py_round str balance exchange_info safety).

Lemma exec_bind_fst {A B : Type} (m : Exec A) (k : A -> Exec B) :
  fst (exec_bind m k)
  = fst m ++ match snd m with Ok a => fst (k a) | Raise _ => [] end.
Proof.
  unfold exec_bind. destruct (snd m); cbn; [reflexivity|].
  now rewrite app_nil_r.
Qed.



Lemma buy_guard_true (d : Decision) :
  buy_guard balance safety d = Ok true ->
  action d = BUY
  /\ exists w v,
       spot_wallet_of balance = Ok w
       /\ (wallet_free w "USD" >? safety) = true
       /\ balance_USD d = Some v
       /\ (v <? Max_position d) = true.
Proof.
  unfold buy_guard. destruct (action d); cbn; try discriminate.
  destruct (spot_wallet_of balance) as [w|]; cbn; [|discriminate].
  destruct (wallet_free w "USD" >? safety) eqn:C; [|discriminate].
  destruct (balance_USD d) as [v|]; cbn; [|discriminate].
  intros [= H]. split; [reflexivity|]. exists w, v. auto.
Qed.

(** The requests of one Decision are of the kind of its action. *)
Lemma block_requests (d : Decision) :
  Forall (fun r =>
            match action d with
            | SELL => liquidates r = true /\ acquires r = false
            | BUY => acquires r = true
            | NULL => False
            end) (fst (block d)).
Proof.
  unfold execute_decision.
  destruct (buy_guard balance safety d) as [[|]|e] eqn:G.
  - apply buy_guard_true in G. destruct G as [-> _].
    unfold exec_bind, exec_lift, exec_post.
    cbn [fst snd app].
    destruct (get_coin_precision (target d) exchange_info) as [pa|];
      cbn [fst snd app]; [|constructor].
    destruct (py_round (amount d) pa) as [q|]; cbn [fst snd app]; [|constructor].
    constructor; [reflexivity|].
    destruct (key_of (sell_price d)) as [sp|]; cbn [fst snd app]; [|constructor].
    destruct (get_price_precision (target d) exchange_info) as [pp|];
      cbn [fst snd app]; [|constructor].
    destruct (py_round sp pp) as [pr|]; cbn [fst snd app]; [|constructor].
    constructor; [reflexivity|constructor].
  - unfold exec_bind, exec_lift, exec_post, exec_ret. cbn [fst snd app].
    destruct (action d); cbn [Action_eqb fst snd app]; try constructor.
    + split; reflexivity.
    + destruct (get_coin_precision (target d) exchange_info) as [pa|];
        cbn [fst snd app]; [|constructor].
      destruct (py_round (amount d) pa) as [q|]; cbn [fst snd app];
        [|constructor].
      constructor; [|constructor]. split; reflexivity.
  - unfold exec_bind, exec_lift. cbn. constructor.
Qed.

Lemma execute_cons (d : Decision) (rest : list Decision) :
  fst (trace_of (d :: rest))
  = fst (block d)
    ++ match snd (block d) with
       | Ok _ => fst (trace_of rest)
       | Raise _ => []
       end.
Proof. cbn [execute]. apply exec_bind_fst. Qed.




End OrderLoop.






Section CycleRequests.

Variable py_round : float -> option Z -> result float.
Variable str : float -> string.



End CycleRequests.


Lemma exec_bind_ok {A B : Type} (a : A) (k : A -> Exec B) :
  exec_bind (exec_lift (Ok a)) k = k a.
Proof. unfold exec_bind, exec_lift. cbn. now destruct (k a). Qed.

Lemma exec_bind_raise {A B : Type} (e : exn) (k : A -> Exec B) :
  exec_bind (exec_lift (Raise e)) k = ([], Raise e).
Proof. reflexivity. Qed.

Lemma exec_bind_post {B : Type} (r : Request) (k : unit -> Exec B) :
  exec_bind (exec_post (Some r)) k = (r :: fst (k tt), snd (k tt)).
Proof. reflexivity. Qed.

(** X12. Unless the free USD balance exceeds the safety floor, the order
    loop acquires nothing: no market buy and no paired limit sell is sent,
    whatever the Decisions are. *)
Theorem no_cash_no_buy
    (py_round : float -> option Z -> result float) (str : float -> string)
    (balance : option BalanceData) (exchange_info : option ExchangeInfo)
    (safety : float) (decision_list : list Decision) :
  (forall w, spot_wallet_of balance = Ok w ->
             (wallet_free w "USD" >? safety) = false) ->
  Forall (fun r => acquires r = false)
    (fst (execute py_round str balance exchange_info safety decision_list)).
Proof.
  intro H. induction decision_list as [|d rest IH]; [constructor|].
  rewrite execute_cons. apply Forall_app. split.
  - destruct (buy_guard balance safety d) as [[|]|e] eqn:G.
    + apply buy_guard_true in G.
      destruct G as (_ & w & v & Hw & C & _). rewrite (H w Hw) in C.
      discriminate.
    + pose proof (block_requests py_round str balance exchange_info safety d)
        as B.
      destruct (action d) eqn:A.
      * unfold execute_decision. rewrite G, A. cbn. constructor.
      * eapply Forall_impl; [|exact B]. now intros r [_ Hr].
      * eapply Forall_impl; [|exact B]. intros r [].
    + unfold execute_decision. rewrite G. cbn. constructor.
  - destruct (snd (execute_decision _ _ _ _ _ _)); [exact IH|constructor].
Qed.

Lemma no_cash_no_buy_witness :
  Forall (fun r => acquires r = false)
    (fst (execute (fun x _ => Ok x) (fun _ => "0"%string)
            (Samples.snapshot 1000 1) None (Fin 1000)
            [strategy (Samples.feed_of (Samples.sample (Fin 150) (Fin 4) (Fin 5)))
               "BTC"%string (Samples.snapshot 1000 1) (Fin 0.5) (Fin 1000)
               (Fin 0.4)])).
Proof.
  refine (no_cash_no_buy _ _ _ _ _ _ _).
  intros w [= <-]. reflexivity.
Defined.

(** X13. A BUY that passes the guard is sent as a market buy followed by a
    limit sell on the same pair and for the same rounded quantity, at the
    rounded sell price.  If rounding the sell price raises, the market buy
    has been sent already: it stays without its protective sell and the
    loop stops. *)
Theorem buy_is_paired_or_unprotected
    (py_round : float -> option Z -> result float) (str : float -> string)
    (balance : option BalanceData) (exchange_info : option ExchangeInfo)
    (safety : float) (d : Decision)
    (pa pp : option Z) (q sp : float) :
  buy_guard balance safety d = Ok true ->
  get_coin_precision (target d) exchange_info = Ok pa ->
  py_round (amount d) pa = Ok q ->
  sell_price d = Some sp ->
  get_price_precision (target d) exchange_info = Ok pp ->
  let pair :=
    if negb (contains_char "/" (target d))
    then String.append (target d) "/USD" else target d in
  let buy :=
    mkRequest place_order_url
      [("pair", pair); ("side", "BUY"); ("type", "MARKET");
       ("quantity", str q)]%string in
  execute_decision py_round str balance exchange_info safety d
  = match py_round sp pp with
    | Ok price =>
        ([buy;
          mkRequest place_order_url
            [("pair", pair); ("side", "SELL"); ("type", "LIMIT");
             ("quantity", str q); ("price", str price)]%string],
         Ok tt)
    | Raise e => ([buy], Raise e)
    end.
Proof.
  intros G Ea Eq Es Ep. cbv zeta. unfold execute_decision.
  rewrite G, exec_bind_ok, Ea, exec_bind_ok, Eq, exec_bind_ok.
  change (place_order str (target d) "BUY" q None None)
    with (Some
            (mkRequest place_order_url
               [("pair"%string,
                 if negb (contains_char "/" (target d))
                 then String.append (target d) "/USD" else target d);
                ("side"%string, "BUY"%string); ("type"%string, "MARKET"%string);
                ("quantity"%string, str q)])).
  rewrite exec_bind_post, Es. cbn [key_of].
  rewrite exec_bind_ok, Ep, exec_bind_ok.
  destruct (py_round sp pp) as [price|e].
  - rewrite exec_bind_ok. reflexivity.
  - rewrite exec_bind_raise. reflexivity.
Qed.

Lemma buy_is_paired_or_unprotected_witness :
  let d :=
    strategy (Samples.feed_of (Samples.sample (Fin 150) (Fin 80) (Fin 5)))
      "BTC"%string (Samples.snapshot 2000 0) (Fin 0.5) (Fin 1000) (Fin 0.4) in
  fst (execute_decision (fun x _ => Ok x) (fun _ => "0"%string)
         (Samples.snapshot 2000 0) None (Fin 1000) d)
  = [mkRequest place_order_url
       [("pair", "BTC/USD"); ("side", "BUY"); ("type", "MARKET");
        ("quantity", "0")]%string;
     mkRequest place_order_url
       [("pair", "BTC/USD"); ("side", "SELL"); ("type", "LIMIT");
        ("quantity", "0"); ("price", "0")]%string].
Proof.
  cbv zeta.
  erewrite (buy_is_paired_or_unprotected (fun x _ => Ok x)
              (fun _ => "0"%string) (Samples.snapshot 2000 0) None (Fin 1000));
    reflexivity.
Defined.

(** X14. A cycle in which the evaluation of every coin fails (for example
    because [get_balance] failed, so that there is no balance snapshot)
    sends no request at all and hands the floor 0.5 to the next cycle as its
    threshold. *)
Theorem failed_cycle_is_idle
    (py_round : float -> option Z -> result float) (str : float -> string)
    (f : CycleFeed) (exchange_info : option ExchangeInfo)
    (sellpoint safety safety_coefficient : float) :
  (forall asset, In asset coin_list ->
     evaluation_fails (cycle_feed f asset) asset (cycle_balance f) sellpoint
       safety safety_coefficient) ->
  cycle_requests py_round str f exchange_info sellpoint safety
    safety_coefficient
  = ([], Ok (Fin 0.5)).
Proof.
  intro H.
  assert (E : evaluate_coins coin_list f sellpoint safety safety_coefficient
              = map (fun c => set_coin c (neutral_decision c)) coin_list).
  { unfold evaluate_coins. apply map_ext_in. intros c Hc.
    destruct (evaluation_fails_raises _ _ _ _ _ _ (H c Hc)) as [e He].
    now rewrite (strategy_raise _ _ _ _ _ _ _ He). }
  unfold cycle_requests, cycle. rewrite E. reflexivity.
Qed.

Lemma failed_cycle_is_idle_witness :
  cycle_requests (fun x _ => Ok x) (fun _ => "0"%string)
    (mkCycleFeed None (fun _ => Samples.outage)) None
    (Fin 2) (Fin 1000) (Fin 0.4)
  = ([], Ok (Fin 0.5)).
Proof.
  refine (failed_cycle_is_idle _ _ _ _ _ _ _ _).
  intros asset _. right. right. left. reflexivity.
Defined.

(** * Requests *)

Lemma contains_char_app (c : ascii) (s t : string) :
  contains_char c (String.append s t) = contains_char c s || contains_char c t.
Proof.
  induction s as [|a s IH]; cbn; [reflexivity|].
  rewrite IH. now rewrite orb_assoc.
Qed.

(** X15. [place_order] posts nothing exactly when a LIMIT order is asked
    for without a price.  Otherwise the posted payload names a pair that
    contains a slash, carries the side and the type in upper case, and has a
    price field exactly when the type (as given, or defaulted from the
    presence of a price) is literally "LIMIT": with the type left out a
    given price is always sent, while an explicit type other than "LIMIT"
    (for example "MARKET" or the lower-case "limit") drops it. *)
Theorem place_order_payload
    (str : float -> string) (pair_or_coin side : string) (quantity : float)
    (price : option float) (order_type : option string) :
  let resolved :=
    match order_type with
    | Some t => t
    | None => if is_none price then "MARKET"%string else "LIMIT"%string
    end in
  let sent := place_order str pair_or_coin side quantity price order_type in
  (sent = None <-> order_type = Some "LIMIT"%string /\ price = None)
  /\ forall r,
       sent = Some r ->
       url r = place_order_url
       /\ (exists p, field "pair" r = Some p /\ contains_char "/" p = true)
       /\ field "side" r = Some (upper side)
       /\ field "type" r = Some (upper resolved)
       /\ field "quantity" r = Some (str quantity)
       /\ field "price" r
          = (if String.eqb resolved "LIMIT" then option_map str price else None)
       /\ (order_type = None -> field "price" r = option_map str price).
Proof.
  cbv zeta. unfold place_order.
  set (resolved := match order_type with
                   | Some t => t
                   | None => if is_none price then "MARKET"%string
                             else "LIMIT"%string
                   end).
  split.
  - split.
    + destruct (String.eqb resolved "LIMIT" && is_none price) eqn:E;
        [|discriminate].
      intros _. apply andb_prop in E. destruct E as [E1 E2].
      apply String.eqb_eq in E1.
      destruct price; [discriminate|].
      destruct order_type as [t|]; [|discriminate].
      subst resolved. now subst t.
    + intros [-> ->]. reflexivity.
  - intros r.
    destruct (String.eqb resolved "LIMIT" && is_none price) eqn:E;
      [discriminate|].
    intros [= <-].
    assert (P : contains_char "/"
                  (if negb (contains_char "/" pair_or_coin)
                   then String.append pair_or_coin "/USD" else pair_or_coin)
                = true).
    { destruct (contains_char "/" pair_or_coin) eqn:C; cbn [negb]; [exact C|].
      rewrite contains_char_app, C. reflexivity. }
    destruct (String.eqb resolved "LIMIT") eqn:L.
    + destruct price as [p|]; [|discriminate].
      repeat split; try reflexivity.
      * eexists. split; [reflexivity|exact P].
    + repeat split; try reflexivity.
      * eexists. split; [reflexivity|exact P].
      * intros ->. subst resolved. now destruct price.
Qed.

(** X16. In [query_order] and [cancel_order] an order id that is truthy
    takes precedence: the payload is the id alone, and the pair and the
    pending filter are dropped.  An id that is absent, 0 or the empty string
    counts as no id, so that [cancel_order] with such an id and no pair
    posts the empty payload. *)
Theorem order_id_precedence
    (order_id : option OrderId) (pair : option string)
    (pending_only : option bool) :
  (truthy_id order_id = true ->
   payload (query_order order_id pair pending_only)
   = [("order_id", str_id order_id)]%string
   /\ payload (cancel_order order_id pair)
      = [("order_id", str_id order_id)]%string)
  /\ (truthy_id order_id = false ->
      query_order order_id pair pending_only
      = query_order None pair pending_only
      /\ cancel_order order_id pair = cancel_order None pair
      /\ field "order_id" (query_order order_id pair pending_only) = None
      /\ (field "pending_only" (query_order order_id pair pending_only)
          <> None
          <-> truthy_str pair = true /\ pending_only <> None)
      /\ (truthy_str pair = false -> payload (cancel_order order_id pair) = []))
  /\ truthy_id (Some (IntId 0)) = false
  /\ truthy_id (Some (StrId "")) = false.
Proof.
  unfold query_order, cancel_order.
  split; [|split; [|split; reflexivity]].
  - intros ->. split; reflexivity.
  - intros E. rewrite E. cbn [truthy_id].
    split; [reflexivity|]. split; [reflexivity|].
    unfold field.
    destruct (truthy_str pair) eqn:P; destruct pending_only as [[|]|];
      cbn; intuition (try discriminate; try congruence).
Qed.

(** * Exchange metadata *)

Lemma precision_loops_skip (coin : string)
    (pre rest : list (string * TradePair)) :
  unlisted coin pre ->
  coin_precision_loop coin (pre ++ rest) = coin_precision_loop coin rest
  /\ price_precision_loop coin (pre ++ rest) = price_precision_loop coin rest.
Proof.
  induction 1 as [|[k info] pre (c & Hc & Hne) _ IH]; [split; reflexivity|].
  cbn in Hc. cbn [app coin_precision_loop price_precision_loop].
  rewrite Hc. cbn [key_of bind].
  apply String.eqb_neq in Hne. rewrite Hne. exact IH.
Qed.

(** X17. The precision lookups return the precisions of the first trade
    pair that lists the coin, later listings being ignored; both return
    [None] when no pair lists the coin or the exchange information is
    missing; and a listing without the precision key raises [KeyError]. *)
Theorem precision_of_first_listing
    (coin key : string) (info : TradePair)
    (pre post : list (string * TradePair)) :
  unlisted coin pre ->
  Coin info = Some coin ->
  let listed := Some (mkExchangeInfo (Some (pre ++ (key, info) :: post))) in
  get_coin_precision coin listed
  = match AmountPrecision info with
    | Some p => Ok (Some p)
    | None => Raise KeyError
    end
  /\ get_price_precision coin listed
     = match PricePrecision info with
       | Some p => Ok (Some p)
       | None => Raise KeyError
       end
  /\ get_coin_precision coin (Some (mkExchangeInfo (Some pre))) = Ok None
  /\ get_price_precision coin (Some (mkExchangeInfo (Some pre))) = Ok None
  /\ get_coin_precision coin None = Ok None
  /\ get_coin_precision coin (Some (mkExchangeInfo None)) = Ok None.
Proof.
  intros U C. cbv zeta. unfold get_coin_precision, get_price_precision.
  cbn [TradePairs].
  destruct (precision_loops_skip coin pre ((key, info) :: post) U) as [-> ->].
  cbn [coin_precision_loop price_precision_loop]. rewrite C.
  cbn [key_of bind]. rewrite String.eqb_refl.
  split; [now destruct (AmountPrecision info)|].
  split; [now destruct (PricePrecision info)|].
  destruct (precision_loops_skip coin pre [] U) as [E1 E2].
  rewrite app_nil_r in E1, E2. rewrite E1, E2. repeat split.
Qed.

Lemma precision_of_first_listing_witness :
  get_coin_precision "ETH"
    (Some (mkExchangeInfo
       (Some [("BTC/USD", mkTradePair (Some "BTC") (Some 5%Z) (Some 2%Z));
              ("ETH/USD", mkTradePair (Some "ETH") (Some 4%Z) (Some 1%Z));
              ("ETH/EUR", mkTradePair (Some "ETH") (Some 9%Z) (Some 9%Z))]%string)))
  = Ok (Some 4%Z).
Proof.
  refine (proj1 (precision_of_first_listing "ETH" "ETH/USD"
                   (mkTradePair (Some "ETH"%string) (Some 4%Z) (Some 1%Z))
                   [("BTC/USD", mkTradePair (Some "BTC") (Some 5%Z) (Some 2%Z))]%string
                   [("ETH/EUR", mkTradePair (Some "ETH") (Some 9%Z) (Some 9%Z))]%string
                   _ eq_refl)).
  repeat constructor. exists "BTC"%string. split; [reflexivity|discriminate].
Defined.

(** * Signing *)

(** ** The order of strings *)

Lemma string_ltb_lt (a b : string) :
  String.ltb a b = true <-> String_as_OT.lt a b.
Proof.
  unfold String.ltb. rewrite <- String_as_OT.cmp_lt. unfold String_as_OT.cmp.
  destruct (String.compare a b); split; congruence.
Qed.

Lemma string_ltb_irrefl (a : string) : String.ltb a a = false.
Proof.
  apply not_true_is_false. intro H. apply string_ltb_lt in H.
  apply String_as_OT.lt_not_eq in H. now apply H.
Qed.

Lemma string_ltb_trans (a b c : string) :
  String.ltb a b = true -> String.ltb b c = true -> String.ltb a c = true.
Proof.
  rewrite !string_ltb_lt. apply String_as_OT.lt_trans.
Qed.

Lemma string_ltb_asym (a b : string) :
  String.ltb a b = true -> String.ltb b a = false.
Proof.
  intro H. apply not_true_is_false. intro H'.
  pose proof (string_ltb_trans _ _ _ H H') as T.
  now rewrite string_ltb_irrefl in T.
Qed.

Lemma string_ltb_total (a b : string) :
  String.ltb a b = false -> String.ltb b a = false -> a = b.
Proof.
  unfold String.ltb. rewrite (String.compare_antisym b a).
  destruct (String.compare a b) eqn:E; cbn; try discriminate.
  intros _ _. now apply String.compare_eq_iff.
Qed.

Lemma string_ltb_negtrans (a b c : string) :
  String.ltb b a = false -> String.ltb c b = false -> String.ltb c a = false.
Proof.
  intros H1 H2. apply not_true_is_false. intro H.
  destruct (String.ltb a b) eqn:E1.
  - pose proof (string_ltb_trans _ _ _ H E1). congruence.
  - assert (a = b) by now apply string_ltb_total. subst. congruence.
Qed.

(** ** Sorted keys are canonical *)

Lemma sorted_keys_unique (l1 : list string) :
  forall l2,
    StronglySorted (in_order String.ltb (fun k : string => k)) l1 ->
    StronglySorted (in_order String.ltb (fun k : string => k)) l2 ->
    Permutation l1 l2 -> l1 = l2.
Proof.
  induction l1 as [|a r1 IH]; intros l2 S1 S2 P.
  - apply Permutation_nil in P. now subst.
  - destruct l2 as [|b r2].
    { apply Permutation_sym, Permutation_nil in P. discriminate. }
    inversion S1 as [|? ? S1' F1]; subst.
    inversion S2 as [|? ? S2' F2]; subst.
    rewrite Forall_forall in F1, F2.
    assert (a = b).
    { assert (Ha : In a (b :: r2)).
      { eapply Permutation_in; [exact P|now left]. }
      assert (Hb : In b (a :: r1)).
      { eapply Permutation_in; [apply Permutation_sym, P|now left]. }
      destruct Ha as [->|Ha]; [reflexivity|].
      destruct Hb as [->|Hb]; [reflexivity|].
      apply string_ltb_total.
      - apply (F2 a Ha).
      - apply (F1 b Hb). }
    subst b. f_equal. apply IH; auto.
    now apply Permutation_cons_inv in P.
Qed.

Lemma sorted_keys_perm (l1 l2 : list string) :
  Permutation l1 l2 ->
  sort_by String.ltb (fun k : string => k) l1
  = sort_by String.ltb (fun k : string => k) l2.
Proof.
  intro P.
  assert (S : forall l,
             StronglySorted (in_order String.ltb (fun k : string => k))
               (sort_by String.ltb (fun k : string => k) l)).
  { intro l.
    apply (sort_by_sorted _ _ String.ltb (fun k : string => k) (fun _ => True)).
    - intros a b _ _. apply string_ltb_asym.
    - intros a b c _ _ _. apply string_ltb_negtrans.
    - apply Forall_forall. auto. }
  apply sorted_keys_unique; [apply S|apply S|].
  eapply perm_trans; [apply Permutation_sym, sort_by_perm|].
  eapply perm_trans; [exact P|apply sort_by_perm].
Qed.

Lemma dict_get_not_in {V : Type} (k : string) (d : list (string * V)) :
  ~ In k (map fst d) -> dict_get k d = None.
Proof.
  induction d as [|[k' v] d IH]; intro H; [reflexivity|].
  cbn. destruct (String.eqb k' k) eqn:E.
  - apply String.eqb_eq in E. subst. exfalso. apply H. now left.
  - apply IH. intro Hin. apply H. now right.
Qed.

Lemma dict_get_perm {V : Type} (k : string) (d1 d2 : list (string * V)) :
  NoDup (map fst d1) -> Permutation d1 d2 -> dict_get k d1 = dict_get k d2.
Proof.
  intros N P. induction P as [|[k' v] l l' P IH|[k1 v1] [k2 v2] l|l l' l'' P1 IH1 P2 IH2].
  - reflexivity.
  - cbn. inversion N; subst. destruct (String.eqb k' k); auto.
  - cbn. destruct (String.eqb k2 k) eqn:E2, (String.eqb k1 k) eqn:E1;
      try reflexivity.
    apply String.eqb_eq in E1, E2. subst.
    inversion N as [|? ? Hn _]; subst. exfalso. apply Hn. now left.
  - rewrite IH1 by exact N. apply IH2.
    eapply Permutation_NoDup; [apply Permutation_map, P1|exact N].
Qed.

Lemma dict_set_keys {V : Type} (k : string) (v : V) (d : list (string * V)) :
  map fst (dict_set k v d)
  = if existsb (String.eqb k) (map fst d) then map fst d
    else map fst d ++ [k].
Proof.
  induction d as [|[k' v'] d IH]; [reflexivity|].
  cbn. rewrite (String.eqb_sym k k').
  destruct (String.eqb k' k) eqn:E; cbn; [reflexivity|].
  rewrite IH. now destruct (existsb _ _).
Qed.

Lemma dict_set_nodup {V : Type} (k : string) (v : V) (d : list (string * V)) :
  NoDup (map fst d) -> NoDup (map fst (dict_set k v d)).
Proof.
  intro N. rewrite dict_set_keys.
  destruct (existsb (String.eqb k) (map fst d)) eqn:E; [exact N|].
  apply NoDup_app; [exact N|repeat constructor; intros []|].
  intros x Hx [Hk|[]]. subst x.
  assert (existsb (String.eqb k) (map fst d) = true).
  { apply existsb_exists. exists k. split; [exact Hx|apply String.eqb_refl]. }
  congruence.
Qed.

Lemma dict_set_perm {V : Type} (k : string) (v : V) (d1 d2 : list (string * V)) :
  NoDup (map fst d1) -> Permutation d1 d2 ->
  Permutation (dict_set k v d1) (dict_set k v d2).
Proof.
  intros N P. induction P as [|[k' v'] l l' P IH|[k1 v1] [k2 v2] l|l l' l'' P1 IH1 P2 IH2].
  - apply Permutation_refl.
  - cbn. inversion N; subst.
    destruct (String.eqb k' k); apply perm_skip; auto.
  - cbn. destruct (String.eqb k2 k) eqn:E2, (String.eqb k1 k) eqn:E1;
      try apply perm_swap.
    apply String.eqb_eq in E1, E2. subst.
    inversion N as [|? ? Hn _]; subst. exfalso. apply Hn. now left.
  - eapply perm_trans; [apply IH1; exact N|]. apply IH2.
    eapply Permutation_NoDup; [apply Permutation_map, P1|exact N].
Qed.

Lemma total_params_perm (p1 p2 : Payload) :
  NoDup (map fst p1) -> Permutation p1 p2 ->
  total_params_of p1 = total_params_of p2.
Proof.
  intros N P. unfold total_params_of.
  rewrite (sorted_keys_perm (map fst p1) (map fst p2))
    by now apply Permutation_map.
  f_equal. apply map_ext. intro k.
  now rewrite (dict_get_perm k p1 p2 N P).
Qed.

(** X18. The signature is canonical: two payloads with the same fields,
    filled in any order, are signed over the same [total_params] string and
    get the same headers. *)
Theorem signature_is_canonical
    (hmac_sha256 : string -> string -> string) (API_KEY API_SECRET now : string)
    (p1 p2 : Payload) :
  NoDup (map fst p1) ->
  Permutation p1 p2 ->
  let s1 := _get_signed_headers hmac_sha256 API_KEY API_SECRET now p1 in
  let s2 := _get_signed_headers hmac_sha256 API_KEY API_SECRET now p2 in
  snd s1 = snd s2
  /\ fst (fst s1) = fst (fst s2)
  /\ dict_get "timestamp" (snd (fst s1)) = Some now
  /\ Permutation (snd (fst s1)) (snd (fst s2)).
Proof.
  intros N P. cbv zeta. unfold _get_signed_headers. cbn [fst snd].
  assert (E : total_params_of (dict_set "timestamp" now p1)
              = total_params_of (dict_set "timestamp" now p2)).
  { apply total_params_perm; [now apply dict_set_nodup|now apply dict_set_perm]. }
  rewrite E. split; [reflexivity|]. split; [reflexivity|].
  split; [|now apply dict_set_perm].
  clear. induction p1 as [|[k v] p IH]; cbn.
  - reflexivity.
  - destruct (String.eqb k "timestamp") eqn:K; cbn; rewrite K; auto.
Qed.

Lemma signature_is_canonical_witness :
  snd (_get_signed_headers (fun _ m => m) "key" "secret" "1700"
         [("pair", "BTC/USD"); ("side", "BUY")]%string)
  = snd (_get_signed_headers (fun _ m => m) "key" "secret" "1700"
           [("side", "BUY"); ("pair", "BTC/USD")]%string).
Proof.
  refine (proj1 (signature_is_canonical (fun _ m => m) "key" "secret" "1700"
                   [("pair", "BTC/USD"); ("side", "BUY")]%string
                   [("side", "BUY"); ("pair", "BTC/USD")]%string _ _)).
  - repeat constructor; cbn; intuition discriminate.
  - apply perm_swap.
Defined.

(** ** The shared default payload *)

Lemma signed_default_calls_from
    (hmac_sha256 : string -> string -> string) (API_KEY API_SECRET : string)
    (times : list string) :
  forall default_payload,
    default_payload = [] \/ (exists t, default_payload = [("timestamp"%string, t)]) ->
    fst (signed_default_calls hmac_sha256 API_KEY API_SECRET times default_payload)
    = map (fun now => String.append "timestamp=" now) times
    /\ snd (signed_default_calls hmac_sha256 API_KEY API_SECRET times
              default_payload)
       = match rev times with
         | [] => default_payload
         | now :: _ => [("timestamp"%string, now)]
         end.
Proof.
  induction times as [|now rest IH]; intros d Hd; [split; reflexivity|].
  cbn [signed_default_calls signed_default_call _get_signed_headers].
  assert (E : dict_set "timestamp" now d = [("timestamp"%string, now)]).
  { destruct Hd as [->|[t ->]]; reflexivity. }
  rewrite E.
  destruct (IH [("timestamp"%string, now)]) as [H1 H2]; [right; eauto|].
  destruct (signed_default_calls _ _ _ rest _) as [signed final].
  cbn [fst snd] in *. subst signed final. split; [reflexivity|].
  cbn [rev]. destruct (rev rest); reflexivity.
Qed.

(** X19. [get_balance] and [get_pending_count] share the one dict that is
    the default value of [payload], and every call writes its timestamp into
    it.  The sharing does no harm: every such call signs exactly
    "timestamp=<now>", never a stale timestamp or a left-over field, and the
    dict holds the last timestamp alone afterwards. *)
Theorem default_payload_stays_fresh
    (hmac_sha256 : string -> string -> string) (API_KEY API_SECRET : string)
    (times : list string) :
  fst (signed_default_calls hmac_sha256 API_KEY API_SECRET times [])
  = map (fun now => String.append "timestamp=" now) times
  /\ snd (signed_default_calls hmac_sha256 API_KEY API_SECRET times [])
     = match rev times with
       | [] => []
       | now :: _ => [("timestamp"%string, now)]
       end.
Proof. apply signed_default_calls_from. now left. Qed.

(** * Window statistics *)

(** ** Rows of the derived columns *)

Lemma nth_error_rolling (n : nat) (agg : list float -> float) (s : Series)
    (i : nat) :
  nth_error (rolling n agg s) i
  = if Nat.ltb i (length s) then
      Some (if Nat.leb n (i + 1) then
              if existsb isna (window n i s) then NaN else agg (window n i s)
            else NaN)
    else None.
Proof.
  unfold rolling. rewrite nth_error_map, nth_error_seq.
  now destruct (Nat.ltb i (length s)).
Qed.

Lemma length_rolling (n : nat) (agg : list float -> float) (s : Series) :
  length (rolling n agg s) = length s.
Proof. unfold rolling. now rewrite length_map, length_seq. Qed.

Lemma nth_error_map2 (f : float -> float -> float) (a : Series) :
  forall (b : Series) (i : nat),
    nth_error (map2 f a b) i
    = match nth_error a i, nth_error b i with
      | Some x, Some y => Some (f x y)
      | _, _ => None
      end.
Proof.
  induction a as [|x a IH]; intros b i.
  - cbn. now destruct i.
  - destruct b as [|y b]; cbn.
    + destruct i; cbn; [reflexivity|]. now destruct (nth_error a i).
    + destruct i; cbn; [reflexivity|apply IH].
Qed.

Lemma nth_error_shift1 (s : Series) (i : nat) :
  nth_error (shift1 s) (S i)
  = if Nat.ltb (S i) (length s) then nth_error s i else None.
Proof.
  destruct s as [|x s]; [reflexivity|].
  unfold shift1. cbn [nth_error].
  rewrite removelast_firstn_len, nth_error_firstn. cbn [length Nat.pred].
  change (Nat.ltb (S i) (S (length s))) with (Nat.ltb i (length s)).
  reflexivity.
Qed.

Lemma nth_error_shift1_0 (s : Series) :
  nth_error (shift1 s) 0 = match s with [] => None | _ :: _ => Some NaN end.
Proof. now destruct s. Qed.

Lemma nth_error_true_range (high low close : Series) (i : nat) :
  nth_error (true_range high low close) i
  = match nth_error high i, nth_error low i, nth_error (shift1 close) i with
    | Some h, Some l, Some p =>
        Some (nan_max (nan_max (h - l) (abs (h - p))) (abs (l - p)))
    | _, _, _ => None
    end.
Proof.
  unfold true_range.
  rewrite !nth_error_map2, !nth_error_map, !nth_error_map2.
  destruct (nth_error high i), (nth_error low i),
    (nth_error (shift1 close) i); reflexivity.
Qed.

Lemma nth_error_window (n i : nat) (s : Series) (k : nat) :
  nth_error (window n i s) k
  = if Nat.ltb k n then nth_error s (i + 1 - n + k) else None.
Proof. unfold window. now rewrite nth_error_firstn, nth_error_skipn. Qed.

Lemma existsb_isna_head (w : list float) :
  nth_error w 0 = Some NaN -> existsb isna w = true.
Proof. destruct w as [|x w]; [discriminate|]. now intros [= ->]. Qed.

(** The first four rows have no 5-sample window: high, low and with them the
    true range are NaN there. *)
Lemma true_range_early (close : Series) (i : nat) :
  (i < 4)%nat -> (i < length close)%nat ->
  nth_error (true_range (ohlcv_high close) (ohlcv_low close) close) i
  = Some NaN.
Proof.
  intros H4 Hl. rewrite nth_error_true_range.
  unfold ohlcv_high, ohlcv_low. rewrite !nth_error_rolling.
  apply PeanoNat.Nat.ltb_lt in Hl. rewrite Hl.
  assert (E : Nat.leb 5 (i + 1) = false) by (apply PeanoNat.Nat.leb_gt; lia).
  rewrite E.
  assert (P : exists p, nth_error (shift1 close) i = Some p).
  { destruct i as [|i].
    - rewrite nth_error_shift1_0. destruct close; [discriminate|eauto].
    - rewrite nth_error_shift1, Hl.
      destruct (nth_error close i) eqn:N; [eauto|].
      apply nth_error_None in N. apply PeanoNat.Nat.ltb_lt in Hl. lia. }
  destruct P as [p ->]. reflexivity.
Qed.

Lemma length_true_range (close : Series) :
  length (true_range (ohlcv_high close) (ohlcv_low close) close)
  = length close.
Proof.
  destruct (PeanoNat.Nat.lt_ge_cases
              (length (true_range (ohlcv_high close) (ohlcv_low close) close))
              (length close)) as [H|H].
  - exfalso.
    set (tr := true_range (ohlcv_high close) (ohlcv_low close) close) in *.
    assert (N : nth_error tr (length tr) = None) by now apply nth_error_None.
    unfold tr at 1 in N. rewrite nth_error_true_range in N.
    unfold ohlcv_high, ohlcv_low in N. rewrite !nth_error_rolling in N.
    apply PeanoNat.Nat.ltb_lt in H. rewrite H in N.
    destruct (length tr) as [|j] eqn:L.
    + rewrite nth_error_shift1_0 in N.
      destruct close; [discriminate H|discriminate N].
    + rewrite nth_error_shift1, H in N.
      destruct (nth_error close j) eqn:Nj; [discriminate N|].
      apply nth_error_None in Nj. apply PeanoNat.Nat.ltb_lt in H. lia.
  - apply PeanoNat.Nat.le_antisymm; [|exact H].
    destruct (PeanoNat.Nat.le_gt_cases
                (length (true_range (ohlcv_high close) (ohlcv_low close) close))
                (length close)) as [H'|H']; [exact H'|exfalso].
    set (tr := true_range (ohlcv_high close) (ohlcv_low close) close) in *.
    assert (N : nth_error tr (length close) <> None)
      by now apply nth_error_Some.
    apply N. unfold tr. rewrite nth_error_true_range.
    unfold ohlcv_high. rewrite nth_error_rolling, PeanoNat.Nat.ltb_irrefl. reflexivity.
Qed.

(** ** The ATR needs history *)

Lemma atr_early (close : Series) (period i : nat) :
  (1 <= period)%nat -> (i < period + 3)%nat -> (i < length close)%nat ->
  nth_error (calculate_atr (ohlcv_high close) (ohlcv_low close) close period) i
  = Some NaN.
Proof.
  intros Hp Hi Hl. unfold calculate_atr.
  rewrite nth_error_rolling, length_true_range.
  apply PeanoNat.Nat.ltb_lt in Hl as Hl'. rewrite Hl'.
  destruct (Nat.leb period (i + 1)) eqn:E; [|reflexivity].
  apply PeanoNat.Nat.leb_le in E.
  rewrite existsb_isna_head; [reflexivity|].
  rewrite nth_error_window.
  assert (Hp' : Nat.ltb 0 period = true) by now apply PeanoNat.Nat.ltb_lt.
  rewrite Hp'. apply true_range_early; lia.
Qed.

(** X20. The ATR column is NaN on the first period + 3 rows (four rows are
    lost to the 5-sample high and low, period - 1 to the mean): a frame of
    fewer than period + 4 samples has no latest ATR, and
    [calculate_coefficient] answers 0 on it. *)
Theorem atr_needs_history
    (close : Series) (period : nat) (df : DataFrame) (latest : Row) :
  (1 <= period)%nat ->
  (0 < length close)%nat ->
  (length close < period + 4)%nat ->
  iloc_last df = Ok latest ->
  nth_error (calculate_atr (ohlcv_high close) (ohlcv_low close) close period)
    (length close - 1)
  = Some (atr latest) ->
  (forall i, (i < length close)%nat ->
     nth_error
       (calculate_atr (ohlcv_high close) (ohlcv_low close) close period) i
     = Some NaN)
  /\ atr latest = NaN
  /\ calculate_coefficient df = Ok zero.
Proof.
  intros Hp H0 Hl Hlast Hatr.
  assert (A : forall i, (i < length close)%nat ->
            nth_error
              (calculate_atr (ohlcv_high close) (ohlcv_low close) close period) i
            = Some NaN).
  { intros i Hi. apply atr_early; lia. }
  split; [exact A|].
  rewrite A in Hatr by lia. injection Hatr as Hatr.
  split; [now symmetry|].
  apply (calculate_coefficient_no_atr df latest Hlast).
  now rewrite <- Hatr.
Qed.

Lemma atr_needs_history_witness :
  calculate_coefficient
    [mkRow (Fin 3) (Fin 3) (Fin 2) (Fin 1) (Fin 0.02) NaN]
  = Ok zero.
Proof.
  refine (proj2 (proj2
    (atr_needs_history [Fin 1; Fin 2; Fin 3] 80
       [mkRow (Fin 3) (Fin 3) (Fin 2) (Fin 1) (Fin 0.02) NaN]
       (mkRow (Fin 3) (Fin 3) (Fin 2) (Fin 1) (Fin 0.02) NaN)
       _ _ _ eq_refl eq_refl))); cbn; lia.
Defined.

(** ** Finite prices *)

Lemma ltb_fin_false (a b : Q) : (b <= a)%Q -> (Fin a <? Fin b) = false.
Proof.
  intro H. cbn [ltb]. pose proof (FloatFacts.Qlt_case a b) as C.
  destruct (a ?= b)%Q; cbv beta iota in C; try reflexivity. lra.
Qed.

Lemma fold_max_fin (rest : list Q) :
  forall m0,
  exists m,
    fold_left (fun m y => if m <? y then y else m) (map Fin rest) (Fin m0)
    = Fin m
    /\ (m = m0 \/ In m rest) /\ (m0 <= m)%Q
    /\ forall x, In x rest -> (x <= m)%Q.
Proof.
  induction rest as [|y rest IH]; intro m0; cbn [map fold_left].
  - exists m0. repeat split; auto; [apply Qle_refl|intros x []].
  - cbn [ltb]. pose proof (FloatFacts.Qlt_case m0 y) as C.
    destruct (m0 ?= y)%Q; cbv beta iota in C.
    + destruct (IH m0) as (m & E & Hin & Hle & Hall). exists m.
      split; [exact E|]. split; [destruct Hin; auto; right; now right|].
      split; [exact Hle|]. intros x [<-|Hx]; [lra|auto].
    + destruct (IH y) as (m & E & Hin & Hle & Hall). exists m.
      split; [exact E|].
      split; [right; destruct Hin as [->|Hin]; [now left|now right]|].
      split; [lra|]. intros x [<-|Hx]; [exact Hle|auto].
    + destruct (IH m0) as (m & E & Hin & Hle & Hall). exists m.
      split; [exact E|]. split; [destruct Hin; auto; right; now right|].
      split; [exact Hle|]. intros x [<-|Hx]; [lra|auto].
Qed.

Lemma fold_min_fin (rest : list Q) :
  forall m0,
  exists m,
    fold_left (fun m y => if y <? m then y else m) (map Fin rest) (Fin m0)
    = Fin m
    /\ (m = m0 \/ In m rest) /\ (m <= m0)%Q
    /\ forall x, In x rest -> (m <= x)%Q.
Proof.
  induction rest as [|y rest IH]; intro m0; cbn [map fold_left].
  - exists m0. repeat split; auto; [apply Qle_refl|intros x []].
  - cbn [ltb]. pose proof (FloatFacts.Qlt_case y m0) as C.
    destruct (y ?= m0)%Q; cbv beta iota in C.
    + destruct (IH m0) as (m & E & Hin & Hle & Hall). exists m.
      split; [exact E|]. split; [destruct Hin; auto; right; now right|].
      split; [exact Hle|]. intros x [<-|Hx]; [lra|auto].
    + destruct (IH y) as (m & E & Hin & Hle & Hall). exists m.
      split; [exact E|].
      split; [right; destruct Hin as [->|Hin]; [now left|now right]|].
      split; [lra|]. intros x [<-|Hx]; [exact Hle|auto].
    + destruct (IH m0) as (m & E & Hin & Hle & Hall). exists m.
      split; [exact E|]. split; [destruct Hin; auto; right; now right|].
      split; [exact Hle|]. intros x [<-|Hx]; [lra|auto].
Qed.

Lemma window_max_fin (ws : list Q) :
  ws <> [] ->
  exists m,
    window_max (map Fin ws) = Fin m /\ In m ws
    /\ forall x, In x ws -> (x <= m)%Q.
Proof.
  destruct ws as [|x ws]; [congruence|]. intros _.
  destruct (fold_max_fin ws x) as (m & E & Hin & Hle & Hall).
  exists m. split; [exact E|].
  split; [destruct Hin as [->|Hin]; [now left|now right]|].
  intros y [<-|Hy]; auto.
Qed.

Lemma window_min_fin (ws : list Q) :
  ws <> [] ->
  exists m,
    window_min (map Fin ws) = Fin m /\ In m ws
    /\ forall x, In x ws -> (m <= x)%Q.
Proof.
  destruct ws as [|x ws]; [congruence|]. intros _.
  destruct (fold_min_fin ws x) as (m & E & Hin & Hle & Hall).
  exists m. split; [exact E|].
  split; [destruct Hin as [->|Hin]; [now left|now right]|].
  intros y [<-|Hy]; auto.
Qed.

Lemma window_fin (n i : nat) (qs : list Q) :
  window n i (map Fin qs) = map Fin (firstn n (skipn (i + 1 - n) qs)).
Proof. unfold window. now rewrite skipn_map, firstn_map. Qed.

Lemma existsb_isna_fin (ws : list Q) : existsb isna (map Fin ws) = false.
Proof. induction ws; [reflexivity|exact IHws]. Qed.

Lemma In_firstn_skipn {A : Type} (n k : nat) (l : list A) (x : A) :
  In x (firstn n (skipn k l)) -> In x l.
Proof.
  intro H. rewrite <- (firstn_skipn k l). apply in_or_app. right.
  rewrite <- (firstn_skipn n (skipn k l)). apply in_or_app. now left.
Qed.

(** From the fifth row on, high, low and the previous close are finite and
    the previous close lies between low and high. *)
Lemma ohlcv_rows_fin (qs : list Q) (i : nat) :
  (4 <= i)%nat -> (i < length qs)%nat ->
  exists h l p,
    nth_error (ohlcv_high (map Fin qs)) i = Some (Fin h)
    /\ nth_error (ohlcv_low (map Fin qs)) i = Some (Fin l)
    /\ nth_error (shift1 (map Fin qs)) i = Some (Fin p)
    /\ In h qs /\ In l qs
    /\ (l <= p <= h)%Q.
Proof.
  intros H4 Hl.
  set (ws := firstn 5 (skipn (i + 1 - 5) qs)).
  assert (Hp : exists p, nth_error qs (i - 1) = Some p).
  { destruct (nth_error qs (i - 1)) eqn:N; [eauto|].
    apply nth_error_None in N. lia. }
  destruct Hp as [p Hp].
  assert (Hin : In p ws).
  { apply (nth_error_In ws 3). unfold ws.
    rewrite nth_error_firstn, nth_error_skipn. cbn [Nat.ltb Nat.leb].
    replace (i + 1 - 5 + 3)%nat with (i - 1)%nat by lia. exact Hp. }
  assert (Hne : ws <> []) by (intro E; rewrite E in Hin; exact Hin).
  assert (Hsub : forall x, In x ws -> In x qs).
  { intros x Hx. unfold ws in Hx. now apply In_firstn_skipn in Hx. }
  destruct (window_max_fin ws Hne) as (h & Eh & Hh & Hmax).
  destruct (window_min_fin ws Hne) as (l & El & Hlo & Hmin).
  exists h, l, p.
  unfold ohlcv_high, ohlcv_low. rewrite !nth_error_rolling, length_map.
  apply PeanoNat.Nat.ltb_lt in Hl as Hl'. rewrite Hl'.
  assert (E5 : Nat.leb 5 (i + 1) = true) by (apply PeanoNat.Nat.leb_le; lia).
  rewrite E5, window_fin, existsb_isna_fin. fold ws. rewrite Eh, El.
  split; [reflexivity|]. split; [reflexivity|]. split.
  - destruct i as [|j]; [lia|].
    rewrite nth_error_shift1, length_map, Hl', nth_error_map.
    replace (S j - 1)%nat with j in Hp by lia. now rewrite Hp.
  - split; [now apply Hsub|]. split; [now apply Hsub|].
    split; [now apply Hmin|now apply Hmax].
Qed.

Lemma true_range_fin (qs : list Q) (i : nat) :
  (4 <= i)%nat -> (i < length qs)%nat ->
  exists h l,
    nth_error (ohlcv_high (map Fin qs)) i = Some (Fin h)
    /\ nth_error (ohlcv_low (map Fin qs)) i = Some (Fin l)
    /\ In h qs /\ In l qs /\ (l <= h)%Q
    /\ nth_error
         (true_range (ohlcv_high (map Fin qs)) (ohlcv_low (map Fin qs))
            (map Fin qs)) i
       = Some (Fin (h - l)).
Proof.
  intros H4 Hl.
  destruct (ohlcv_rows_fin qs i H4 Hl) as (h & l & p & Eh & El & Ep & Hh & Hlo & B).
  exists h, l. rewrite nth_error_true_range, Eh, El, Ep.
  split; [reflexivity|]. split; [reflexivity|].
  split; [exact Hh|]. split; [exact Hlo|]. split; [lra|].
  f_equal. unfold nan_max, sub. cbn [neg add abs isna].
  assert (A1 : (Qabs (h + - p) <= h + - l)%Q).
  { apply Qabs_Qle_condition. lra. }
  assert (A2 : (Qabs (l + - p) <= h + - l)%Q).
  { apply Qabs_Qle_condition. lra. }
  rewrite (ltb_fin_false _ _ A1). cbn [isna].
  rewrite (ltb_fin_false _ _ A2). reflexivity.
Qed.

(** X21. On the columns [get_ohlcv] derives from finite closing prices, the
    true range of every row from the fifth on is just the 5-sample range
    high - low, and it is not negative: the two terms that involve the
    previous close never exceed it, because the previous close lies inside
    the window. *)
Theorem true_range_is_window_range (qs : list Q) (i : nat) :
  (4 <= i)%nat -> (i < length qs)%nat ->
  exists h l,
    nth_error (ohlcv_high (map Fin qs)) i = Some (Fin h)
    /\ nth_error (ohlcv_low (map Fin qs)) i = Some (Fin l)
    /\ In h qs /\ In l qs /\ (l <= h)%Q
    /\ nth_error
         (true_range (ohlcv_high (map Fin qs)) (ohlcv_low (map Fin qs))
            (map Fin qs)) i
       = Some (Fin (h - l)).
Proof. apply true_range_fin. Qed.

Lemma true_range_is_window_range_witness :
  exists h l,
    nth_error (ohlcv_high (map Fin [10; 11; 9; 12; 13; 8]%Q)) 5 = Some (Fin h)
    /\ nth_error (ohlcv_low (map Fin [10; 11; 9; 12; 13; 8]%Q)) 5 = Some (Fin l)
    /\ (l <= h)%Q
    /\ nth_error
         (true_range (ohlcv_high (map Fin [10; 11; 9; 12; 13; 8]%Q))
            (ohlcv_low (map Fin [10; 11; 9; 12; 13; 8]%Q))
            (map Fin [10; 11; 9; 12; 13; 8]%Q)) 5
       = Some (Fin (h - l)).
Proof.
  destruct (true_range_is_window_range [10; 11; 9; 12; 13; 8]%Q 5)
    as (h & l & H1 & H2 & _ & _ & H3 & H4); [cbn; lia|cbn; lia|].
  exists h, l. auto.
Defined.

(** ** The ATR of finite prices *)

Lemma In_window (n i : nat) (s : Series) (x : float) :
  In x (window n i s) ->
  exists k, (k < n)%nat /\ nth_error s (i + 1 - n + k) = Some x.
Proof.
  intro H. apply In_nth_error in H. destruct H as [k Hk].
  rewrite nth_error_window in Hk. exists k.
  destruct (Nat.ltb k n) eqn:E; [|discriminate].
  apply PeanoNat.Nat.ltb_lt in E. auto.
Qed.

Lemma length_window (n i : nat) (s : Series) :
  (n <= i + 1)%nat -> (i < length s)%nat -> length (window n i s) = n.
Proof.
  intros Hn Hi. unfold window. rewrite length_firstn, length_skipn. lia.
Qed.

Lemma Forall_fin (P : Q -> Prop) (w : list float) :
  Forall (fun v => exists t, v = Fin t /\ P t) w ->
  exists ts, w = map Fin ts /\ Forall P ts.
Proof.
  induction 1 as [|v w (t & -> & Ht) _ (ts & -> & Hts)].
  - exists []. split; [reflexivity|constructor].
  - exists (t :: ts). split; [reflexivity|now constructor].
Qed.

Lemma sum_fin (ts : list Q) :
  forall s0,
  exists s,
    fold_left add (map Fin ts) (Fin s0) = Fin s
    /\ (Forall (fun t => 0 <= t)%Q ts -> (0 <= s0)%Q -> (0 <= s)%Q)
    /\ (Forall (fun t => t == 0)%Q ts -> (s0 == 0)%Q -> (s == 0)%Q).
Proof.
  induction ts as [|t ts IH]; intro s0; cbn [map fold_left add].
  - exists s0. auto.
  - destruct (IH (s0 + t)%Q) as (s & E & Hpos & Hzero). exists s.
    split; [exact E|]. split.
    + intros F H0. inversion F; subst. apply Hpos; [assumption|lra].
    + intros F H0. inversion F; subst. apply Hzero; [assumption|lra].
Qed.

Lemma window_mean_fin (ts : list Q) :
  ts <> [] ->
  exists m,
    window_mean (map Fin ts) = Fin m
    /\ (Forall (fun t => 0 <= t)%Q ts -> (0 <= m)%Q)
    /\ (Forall (fun t => t == 0)%Q ts -> (m == 0)%Q).
Proof.
  intro Hne. unfold window_mean, zero.
  destruct (sum_fin ts 0) as (s & -> & Hpos & Hzero).
  rewrite length_map.
  assert (Hn : (0 < inject_Z (Z.of_nat (length ts)))%Q).
  { destruct ts; [congruence|]. unfold Qlt. cbn. lia. }
  exists (s / inject_Z (Z.of_nat (length ts)))%Q.
  split; [|split].
  - cbn [np_div]. unfold Qsign.
    assert (E : (inject_Z (Z.of_nat (length ts)) ?= 0)%Q = Gt)
      by now apply FloatFacts.Qcompare_Gt.
    now rewrite E.
  - intro F. apply Qle_shift_div_l; [exact Hn|].
    specialize (Hpos F (Qle_refl 0)). lra.
  - intro F. specialize (Hzero F (Qeq_refl 0)).
    unfold Qdiv. rewrite Hzero. ring.
Qed.

(** From row period + 3 on the ATR of finite prices is a finite value, not
    negative, and 0 when all prices are equal. *)
Lemma atr_fin (qs : list Q) (period i : nat) :
  (1 <= period)%nat -> (period + 3 <= i)%nat -> (i < length qs)%nat ->
  exists a,
    nth_error
      (calculate_atr (ohlcv_high (map Fin qs)) (ohlcv_low (map Fin qs))
         (map Fin qs) period) i
    = Some (Fin a)
    /\ (0 <= a)%Q
    /\ ((forall x y, In x qs -> In y qs -> x == y)%Q -> (a == 0)%Q).
Proof.
  intros Hp Hi Hl. unfold calculate_atr.
  set (tr := true_range (ohlcv_high (map Fin qs)) (ohlcv_low (map Fin qs))
               (map Fin qs)).
  assert (Ltr : length tr = length qs).
  { unfold tr. now rewrite length_true_range, length_map. }
  rewrite nth_error_rolling, Ltr.
  apply PeanoNat.Nat.ltb_lt in Hl as Hl'. rewrite Hl'.
  assert (E : Nat.leb period (i + 1) = true) by (apply PeanoNat.Nat.leb_le; lia).
  rewrite E.
  assert (F : Forall (fun v => exists t, v = Fin t
                        /\ (0 <= t
                            /\ ((forall x y, In x qs -> In y qs -> x == y)
                                -> t == 0))%Q)
                (window period i tr)).
  { apply Forall_forall. intros v Hv.
    apply In_window in Hv. destruct Hv as (k & Hk & Hv).
    destruct (true_range_fin qs (i + 1 - period + k))
      as (h & l & _ & _ & Hh & Hlo & Hle & Etr); [lia|lia|].
    fold tr in Etr. rewrite Etr in Hv. injection Hv as <-.
    exists (h - l)%Q. split; [reflexivity|]. split; [lra|].
    intro Flat. specialize (Flat h l Hh Hlo). lra. }
  apply Forall_fin in F. destruct F as (ts & Ew & Fts).
  assert (Hne : ts <> []).
  { intro Z. subst ts.
    assert (L : length (window period i tr) = period)
      by (apply length_window; lia).
    rewrite Ew in L. cbn in L. lia. }
  rewrite Ew, existsb_isna_fin.
  destruct (window_mean_fin ts Hne) as (m & -> & Hpos & Hzero).
  exists m. split; [reflexivity|]. split.
  - apply Hpos. eapply Forall_impl; [|exact Fts]. now intros t [H _].
  - intro Flat. apply Hzero.
    eapply Forall_impl; [|exact Fts]. intros t [_ H]. now apply H.
Qed.

(** X22. For finite closing prices the ATR column is defined from row
    period + 3 on, and it is never negative there. *)
Theorem atr_defined_nonnegative (qs : list Q) (period i : nat) :
  (1 <= period)%nat -> (period + 3 <= i)%nat -> (i < length qs)%nat ->
  exists a,
    nth_error
      (calculate_atr (ohlcv_high (map Fin qs)) (ohlcv_low (map Fin qs))
         (map Fin qs) period) i
    = Some (Fin a)
    /\ (0 <= a)%Q.
Proof.
  intros Hp Hi Hl. destruct (atr_fin qs period i Hp Hi Hl) as (a & E & H & _).
  eauto.
Qed.

Lemma atr_defined_nonnegative_witness :
  exists a,
    nth_error
      (calculate_atr (ohlcv_high (map Fin [10; 11; 9; 12; 13; 8]%Q))
         (ohlcv_low (map Fin [10; 11; 9; 12; 13; 8]%Q))
         (map Fin [10; 11; 9; 12; 13; 8]%Q) 2) 5
    = Some (Fin a)
    /\ (0 <= a)%Q.
Proof.
  refine (atr_defined_nonnegative [10; 11; 9; 12; 13; 8]%Q 2 5 _ _ _);
    cbn; lia.
Defined.

(** X23. Flat market: when all closing prices are equal (and there are at
    least period + 4 of them), the latest ATR is 0, so that
    [calculate_coefficient] answers 0 whatever the other indicators are. *)
Theorem flat_market_has_no_signal
    (qs : list Q) (period : nat) (df : DataFrame) (latest : Row) :
  (1 <= period)%nat ->
  (period + 4 <= length qs)%nat ->
  (forall x y, In x qs -> In y qs -> x == y)%Q ->
  iloc_last df = Ok latest ->
  nth_error
    (calculate_atr (ohlcv_high (map Fin qs)) (ohlcv_low (map Fin qs))
       (map Fin qs) period) (length qs - 1)
  = Some (atr latest) ->
  (atr latest =? zero) = true
  /\ calculate_coefficient df = Ok zero.
Proof.
  intros Hp Hl Flat Hlast Hatr.
  destruct (atr_fin qs period (length qs - 1)) as (a & E & _ & Hz);
    [lia|lia|lia|].
  rewrite E in Hatr. injection Hatr as Hatr.
  assert (Z : (atr latest =? zero) = true).
  { rewrite <- Hatr. unfold zero. cbn [eqb].
    apply Qeq_bool_iff. now apply Hz. }
  split; [exact Z|].
  apply (calculate_coefficient_no_atr df latest Hlast).
  rewrite Z. apply orb_true_r.
Qed.

Lemma flat_market_has_no_signal_witness :
  calculate_coefficient
    [mkRow (Fin 7) (Fin 9) (Fin 7) (Fin 0) (Fin 0.02) (Fin (0 # 2))]
  = Ok zero.
Proof.
  refine (proj2
    (flat_market_has_no_signal [7; 7; 7; 7; 7; 7]%Q 2
       [mkRow (Fin 7) (Fin 9) (Fin 7) (Fin 0) (Fin 0.02) (Fin (0 # 2))]
       (mkRow (Fin 7) (Fin 9) (Fin 7) (Fin 0) (Fin 0.02) (Fin (0 # 2)))
       _ _ _ eq_refl _)).
  - lia.
  - cbn. lia.
  - intros x y Hx Hy. cbn in Hx, Hy.
    repeat (destruct Hx as [<-|Hx]; [|]); try contradiction;
      repeat (destruct Hy as [<-|Hy]; [|]); try contradiction; reflexivity.
  - vm_compute. reflexivity.
Defined.
